(** * Saved-analysis persistence and query layer

    A shallow embedding of the saved-analysis code of the rental
    profitability tool:

    - [src/lib/localStorage.ts]      the class [AnalysisStorage]
    - [src/lib/analysisStore.ts]     the cache-first repository functions
    - [src/app/api/analyses/route.ts]       the list query [GET]
    - [src/app/api/analyses/[id]/route.ts]  the handler [DELETE]

    Conventions of the embedding.

    - A JavaScript [number] holding a count, an amount of pesos or a
      page index is a [Z]; [cap_rate] and the dashboard average are
      exact rationals ([Qc]).  [NaN] does not occur in the model.
    - An ISO date string is the [Z] of its epoch milliseconds, so that
      comparing [new Date(s)] values is comparing these integers.
    - An optional field ([x?: T]) is an [option T]; [undefined] is [None].
    - The content of a localStorage key is text: either the JSON text of
      a value ([Json v], on which [JSON.parse] gives [v] back) or text
      that [JSON.parse] rejects ([Garbage]).  A parsed value has the
      type the code gives it: the analyses that are stored or imported
      are analysis records.  What the code does with JSON of another
      shape is not modelled.
    - Effects are explicit: an effectful function is a state transformer
      over [World] that either returns a value or throws.  One call
      reads one clock value; [set_clock] is time passing between calls.
    - Strings are sequences of bytes, the UTF-8 text.  Lower-casing is
      the engine's and is taken from the host, like its sort; the order
      of titles is that of the bytes, which is the order of JavaScript
      on text of the Basic Multilingual Plane. *)

From Stdlib Require Import ZArith String Ascii List Lia Permutation Sorted QArith Qcanon.
From stdpp Require Import gmap strings list numbers pretty.

Open Scope string_scope.
Open Scope list_scope.
Open Scope Z_scope.

(** ** Data model ([src/types/saved-analysis.ts]) *)

Inductive Status :=
  draft | sent_to_client | client_responded | published | archived.

#[global] Instance Status_eq_dec : EqDecision Status.
Proof. solve_decision. Defined.

Inductive Currency := CLP | UF.

Record Property := {
  address : string;
  value_clp : Z;
  value_uf : option Z;
  size_m2 : Z;
  bedrooms : Z;
  bathrooms : Z;
  parking_spaces : Z;
  storage_units : Z }.

Record AnnualExpenses := {
  maintenance_clp : Z;
  property_tax_clp : Z;
  insurance_clp : Z }.

Record AnalysisData := {
  suggested_rent_clp : option Z;
  suggested_rent_uf : option Z;
  rent_currency : Currency;
  capture_price_clp : option Z;
  annual_expenses : AnnualExpenses;
  uf_value_clp : Z }.

Record Calculations := {
  cap_rate : Qc;
  annual_rental_yield : Qc;
  monthly_net_income : Z;
  vacancy_cost_per_month : Z;
  break_even_rent_reduction : Qc }.

Record Metadata := {
  created_at : Z;
  updated_at : Z;
  broker_email : string;
  status : Status;
  tags : option (list string);
  notes : option string }.

Record SavedAnalysis := {
  id : string;
  title : string;
  property : Property;
  analysis : AnalysisData;
  calculations : Calculations;
  metadata : Metadata }.

(** [{ ...m, updated_at: t }] *)
Definition with_updated_at (t : Z) (m : Metadata) : Metadata :=
  {| created_at := created_at m; updated_at := t;
     broker_email := broker_email m; status := status m;
     tags := tags m; notes := notes m |}.

(** [{ ...m, status: s }] *)
Definition with_status (s : Status) (m : Metadata) : Metadata :=
  {| created_at := created_at m; updated_at := updated_at m;
     broker_email := broker_email m; status := s;
     tags := tags m; notes := notes m |}.

(** [{ ...m, tags: t }] and [{ ...m, notes: n }] *)
Definition with_metadata_tags (t : list string) (m : Metadata) : Metadata :=
  {| created_at := created_at m; updated_at := updated_at m;
     broker_email := broker_email m; status := status m;
     tags := Some t; notes := notes m |}.

Definition with_metadata_notes (n : string) (m : Metadata) : Metadata :=
  {| created_at := created_at m; updated_at := updated_at m;
     broker_email := broker_email m; status := status m;
     tags := tags m; notes := Some n |}.

(** [{ ...a, metadata: m }] *)
Definition with_metadata (m : Metadata) (a : SavedAnalysis) : SavedAnalysis :=
  {| id := id a; title := title a; property := property a;
     analysis := analysis a; calculations := calculations a;
     metadata := m |}.

(** [Partial<SavedAnalysis>]: every top-level key may be missing. *)
Record PartialSavedAnalysis := {
  p_id : option string;
  p_title : option string;
  p_property : option Property;
  p_analysis : option AnalysisData;
  p_calculations : option Calculations;
  p_metadata : option Metadata }.

Inductive SortKey := by_created_at | by_updated_at | by_property_value | by_title.
Inductive SortOrder := asc | desc.

(** [new Date(s)] for a filter bound typed in by the user. *)
Inductive JsDate := ValidDate (t : Z) | InvalidDate.

Record AnalysisFilters := {
  search : option string;
  f_status : option Status;
  dateFrom : option JsDate;
  dateTo : option JsDate;
  minValue : option Z;
  maxValue : option Z;
  f_bedrooms : option Z;
  f_bathrooms : option Z;
  f_tags : option (list string);
  sortBy : option SortKey;
  sortOrder : option SortOrder }.

Record AnalysisListResponse := {
  analyses : list SavedAnalysis;
  total : Z;
  page : Z;
  pageSize : Z;
  hasMore : bool }.

Inductive ActivityType :=
  analysis_created | rental_sent | client_response | price_updated.

Record DashboardActivity := {
  act_id : string;
  act_type : ActivityType;
  act_title : string;
  act_description : string;
  act_date : Z;
  act_property_address : option string }.

Record DashboardData := {
  totalAnalyses : Z;
  activeRentals : Z;
  totalRevenue : Z;
  averageRentability : Qc;
  recentActivity : list DashboardActivity }.

(** ** JavaScript built-ins used by the code *)

(** [s.includes(sub)]: [sub] occurs in [s] at some position. *)
Fixpoint String_includes (s sub : string) : bool :=
  (String.prefix sub s ||
   match s with
   | EmptyString => false
   | String _ s' => String_includes s' sub
   end)%bool.

(** [arr.includes(x)] on an array of strings. *)
Definition Array_includes (l : list string) (x : string) : bool :=
  existsb (String.eqb x) l.

(** [arr.findIndex(p)]; [None] stands for [-1]. *)
Fixpoint findIndex {A} (p : A -> bool) (l : list A) : option nat :=
  match l with
  | [] => None
  | x :: l' => if p x then Some O else option_map S (findIndex p l')
  end.

(** [arr.slice(start, end)]: a negative bound counts from the end of
    the array, and both bounds are clamped to the array. *)
Definition Array_slice {A} (l : list A) (start end_ : Z) : list A :=
  let len := Z.of_nat (length l) in
  let k := if start <? 0 then Z.max (len + start) 0 else Z.min start len in
  let final := if end_ <? 0 then Z.max (len + end_) 0 else Z.min end_ len in
  take (Z.to_nat (final - k)) (drop (Z.to_nat k) l).

(** [Array.prototype.sort(comparefn)] is supplied by the JavaScript
    engine: the language fixes the resulting order only for a
    consistent comparison function and leaves it to the engine
    otherwise.  [String.prototype.toLowerCase] is the engine's too: it
    maps a string through the case tables of Unicode.  The code is
    therefore modelled over its host, and nothing is assumed of the
    lower-casing. *)
Class Host := {
  Array_sort : forall A : Type, (A -> A -> Z) -> list A -> list A;
  String_toLowerCase : string -> string }.

Arguments Array_sort {_} {A} comparefn l.
Arguments String_toLowerCase {_} s.

(** What every engine's sort does: it rearranges the array. *)
Definition sort_permutes (H : Host) : Prop :=
  forall (A : Type) (comparefn : A -> A -> Z) (l : list A),
    Permutation (Array_sort comparefn l) l.

(** ** The world the code runs in *)

(** Text held under a localStorage key. *)
Inductive Text (A : Type) := Json (v : A) | Garbage.
Arguments Json {A} v.
Arguments Garbage {A}.

(** The two keys of [STORAGE_KEYS] the code reads and writes;
    [None] is a key that is not set ([getItem] gives [null]). *)
Record LocalStorage := {
  rental_analyses : option (Text (list SavedAnalysis));
  dashboard_data : option (Text DashboardData) }.

(** Modelled from the spec: the module [@/lib/cache/analysisCache] is
    imported by [analysisStore.ts] and is not among the sources.  The
    specification describes it as a memo of single records (by id) and
    of list results (by query key), each entry valid for a fixed
    time-to-live after it was stored and treated as absent afterwards. *)
Record Cache := {
  entries : gmap string (SavedAnalysis * Z);
  lists : gmap string (list SavedAnalysis * Z) }.

Record World := {
  storage_available : bool;   (* [window] exists and localStorage accepts writes *)
  localStorage : LocalStorage;
  cache : Cache;
  clock : Z }.                (* what [new Date()] and [Date.now()] read *)

Definition set_localStorage (s : LocalStorage) (w : World) : World :=
  {| storage_available := storage_available w; localStorage := s;
     cache := cache w; clock := clock w |}.

Definition set_cache (c : Cache) (w : World) : World :=
  {| storage_available := storage_available w; localStorage := localStorage w;
     cache := c; clock := clock w |}.

(** Time passing between two calls. *)
Definition set_clock (t : Z) (w : World) : World :=
  {| storage_available := storage_available w; localStorage := localStorage w;
     cache := cache w; clock := t |}.

(** ** Effects: state and exceptions *)

Inductive outcome (A : Type) := Returned (a : A) | Thrown.
Arguments Returned {A} a.
Arguments Thrown {A}.

Definition Eff (A : Type) : Type := World -> outcome A * World.

Definition ret {A} (a : A) : Eff A := fun w => (Returned a, w).

Definition throw {A} : Eff A := fun w => (Thrown, w).

Definition bind {A B} (m : Eff A) (k : A -> Eff B) : Eff B :=
  fun w =>
    match m w with
    | (Returned a, w') => k a w'
    | (Thrown, w') => (Thrown, w')
    end.

(** [try { m } catch { h }] *)
Definition try_catch {A} (m h : Eff A) : Eff A :=
  fun w =>
    match m w with
    | (Returned a, w') => (Returned a, w')
    | (Thrown, w') => h w'
    end.

Notation "'let*' x := m 'in' k" := (bind m (fun x => k))
  (at level 10, x name, m at level 100, k at level 200).

(** Any use of [localStorage] throws where it is not available
    (no [window] on the server, storage disabled in the browser). *)
Definition localStorage_read {A} (f : LocalStorage -> A) : Eff A :=
  fun w =>
    if storage_available w
    then (Returned (f (localStorage w)), w)
    else (Thrown, w).

Definition localStorage_write (f : LocalStorage -> LocalStorage) : Eff unit :=
  fun w =>
    if storage_available w
    then (Returned tt, set_localStorage (f (localStorage w)) w)
    else (Thrown, w).

Definition getItem_ANALYSES : Eff (option (Text (list SavedAnalysis))) :=
  localStorage_read rental_analyses.

Definition setItem_ANALYSES (t : Text (list SavedAnalysis)) : Eff unit :=
  localStorage_write (fun s =>
    {| rental_analyses := Some t; dashboard_data := dashboard_data s |}).

Definition removeItem_ANALYSES : Eff unit :=
  localStorage_write (fun s =>
    {| rental_analyses := None; dashboard_data := dashboard_data s |}).

Definition getItem_DASHBOARD_DATA : Eff (option (Text DashboardData)) :=
  localStorage_read dashboard_data.

Definition setItem_DASHBOARD_DATA (t : Text DashboardData) : Eff unit :=
  localStorage_write (fun s =>
    {| rental_analyses := rental_analyses s; dashboard_data := Some t |}).

Definition removeItem_DASHBOARD_DATA : Eff unit :=
  localStorage_write (fun s =>
    {| rental_analyses := rental_analyses s; dashboard_data := None |}).

(** [localStorage.setItem('test', 'test'); localStorage.removeItem('test')]:
    the key is gone again afterwards. *)
Definition probe_test_key : Eff unit :=
  localStorage_read (fun _ => tt).

Definition JSON_parse {A} (t : Text A) : Eff A :=
  match t with
  | Json v => ret v
  | Garbage => throw
  end.

(** [new Date().toISOString()] and [Date.now()] *)
Definition Date_now : Eff Z := fun w => (Returned (clock w), w).

(** ** [src/lib/localStorage.ts] *)

Definition isLocalStorageAvailable : Eff bool :=
  try_catch (let* _ := probe_test_key in ret true) (ret false).

Definition quoted (s : string) : string :=
  let q := String (ascii_of_nat 34) EmptyString in q +:+ s +:+ q.

Definition emptyDashboard : DashboardData :=
  {| totalAnalyses := 0; activeRentals := 0; totalRevenue := 0;
     averageRentability := 0%Qc; recentActivity := [] |}.

Definition same_id (i : string) (a : SavedAnalysis) : bool := String.eqb (id a) i.

(** What [JSON.parse] of import text holds under [analyses]: nothing (or
    a falsy value), something that is not an array, or an array of
    analysis records.  [importData] itself only asks whether it is an
    array; an array holding anything else than analysis records is not
    among the inputs of the model. *)
Inductive ImportedAnalyses :=
| NoAnalyses
| NotAnArray
| AnalysesArray (l : list SavedAnalysis).

(** The object [exportData] serializes and [importData] parses. *)
Record ExportData := {
  e_analyses : ImportedAnalyses;
  e_dashboardData : option DashboardData;
  e_exportedAt : option Z }.

Module AnalysisStorage.
Section WithHost.
Context `{Host}.

Definition getAll : Eff (list SavedAnalysis) :=
  let* ok := isLocalStorageAvailable in
  if negb ok then ret [] else
  try_catch
    (let* stored := getItem_ANALYSES in
     match stored with
     | Some t => JSON_parse t
     | None => ret []
     end)
    (ret []).

Definition getById (i : string) : Eff (option SavedAnalysis) :=
  let* analyses := getAll in
  ret (List.find (same_id i) analyses).

(** The activities derived from the stored analyses. *)
Definition activitiesOf (a : SavedAnalysis) : list DashboardActivity :=
  {| act_id := "analysis_" +:+ id a;
     act_type := analysis_created;
     act_title := "Nuevo análisis creado";
     act_description := quoted (title a);
     act_date := created_at (metadata a);
     act_property_address := Some (address (property a)) |}
  :: (if decide (status (metadata a) = sent_to_client)
      then [ {| act_id := "sent_" +:+ id a;
                act_type := rental_sent;
                act_title := "Propuesta enviada";
                act_description :=
                  "Análisis " +:+ quoted (title a) +:+ " enviado al cliente";
                act_date := updated_at (metadata a);
                act_property_address := Some (address (property a)) |} ]
      else []).

Definition getRecentActivity : Eff (list DashboardActivity) :=
  let* analyses := getAll in
  let activities := flat_map activitiesOf analyses in
  ret (Array_slice
         (Array_sort (fun a b => act_date b - act_date a) activities) 0 20).

Definition isActive (a : SavedAnalysis) : bool :=
  bool_decide (status (metadata a) = sent_to_client) ||
  bool_decide (status (metadata a) = published).

Definition sumRent (l : list SavedAnalysis) : Z :=
  fold_left (fun sum a => sum + default 0 (suggested_rent_clp (analysis a))) l 0.

Definition sumCapRate (l : list SavedAnalysis) : Qc :=
  fold_left (fun sum a => (sum + cap_rate (calculations a))%Qc) l 0%Qc.

Definition updateDashboardStats : Eff unit :=
  let* analyses := getAll in
  let* recent := getRecentActivity in
  let dashboardData :=
    {| totalAnalyses := Z.of_nat (length analyses);
       activeRentals := Z.of_nat (length (List.filter isActive analyses));
       totalRevenue := sumRent analyses;
       averageRentability :=
         if 0 <? Z.of_nat (length analyses)
         then (sumCapRate analyses / Qc_of_Z (Z.of_nat (length analyses)))%Qc
         else 0%Qc;
       recentActivity := recent |} in
  let* ok := isLocalStorageAvailable in
  if ok then setItem_DASHBOARD_DATA (Json dashboardData) else ret tt.

Definition save (a : SavedAnalysis) : Eff bool :=
  let* ok := isLocalStorageAvailable in
  if negb ok then ret false else
  try_catch
    (let* analyses := getAll in
     let* analyses' :=
       match findIndex (same_id (id a)) analyses with
       | Some existingIndex =>
           let* now := Date_now in
           ret (<[existingIndex :=
                    with_metadata (with_updated_at now (metadata a)) a]> analyses)
       | None => ret (analyses ++ [a])
       end in
     let* _ := setItem_ANALYSES (Json analyses') in
     let* _ := updateDashboardStats in
     ret true)
    (ret false).

Definition delete (i : string) : Eff bool :=
  let* ok := isLocalStorageAvailable in
  if negb ok then ret false else
  try_catch
    (let* analyses := getAll in
     let filteredAnalyses := List.filter (fun a => negb (same_id i a)) analyses in
     let* _ := setItem_ANALYSES (Json filteredAnalyses) in
     let* _ := updateDashboardStats in
     ret true)
    (ret false).

Definition getDashboardData : Eff DashboardData :=
  let* ok := isLocalStorageAvailable in
  if negb ok then ret emptyDashboard else
  let* found := try_catch
             (let* stored := getItem_DASHBOARD_DATA in
              match stored with
              | Some t => let* v := JSON_parse t in ret (Some v)
              | None => ret None
              end)
             (ret None) in
  match found with
  | Some v => ret v
  | None =>
      let* _ := updateDashboardStats in
      let* stored := getItem_DASHBOARD_DATA in
      match stored with
      | Some t => JSON_parse t
      | None => ret emptyDashboard
      end
  end.

Definition addDashboardActivity (activity : DashboardActivity) : Eff unit :=
  let* ok := isLocalStorageAvailable in
  if negb ok then ret tt else
  try_catch
    (let* currentData := getDashboardData in
     let activities := activity :: recentActivity currentData in
     let recentActivities := Array_slice activities 0 20 in
     setItem_DASHBOARD_DATA
       (Json {| totalAnalyses := totalAnalyses currentData;
                activeRentals := activeRentals currentData;
                totalRevenue := totalRevenue currentData;
                averageRentability := averageRentability currentData;
                recentActivity := recentActivities |}))
    (ret tt).

Definition statusName (s : Status) : string :=
  match s with
  | draft => "draft"
  | sent_to_client => "sent_to_client"
  | client_responded => "client_responded"
  | published => "published"
  | archived => "archived"
  end.

Definition updateStatus (i : string) (s : Status) : Eff bool :=
  let* analyses := getAll in
  match findIndex (same_id i) analyses with
  | Some analysisIndex =>
      match analyses !! analysisIndex with
      | Some a =>
          let* now := Date_now in
          let a' := with_metadata (with_updated_at now (with_status s (metadata a))) a in
          let analyses' := <[analysisIndex := a']> analyses in
          try_catch
            (let* _ := setItem_ANALYSES (Json analyses') in
             let* t := Date_now in
             let* _ := addDashboardActivity
               {| act_id := "activity_" +:+ pretty t;
                  act_type := rental_sent;
                  act_title := "Estado actualizado: " +:+ statusName s;
                  act_description :=
                    "Análisis " +:+ quoted (title a') +:+ " cambió a " +:+ statusName s;
                  act_date := t;
                  act_property_address := Some (address (property a')) |} in
             ret true)
            (ret false)
      | None => throw
      end
  | None => ret false
  end.

Definition clearAll : Eff bool :=
  let* ok := isLocalStorageAvailable in
  if negb ok then ret false else
  try_catch
    (let* _ := removeItem_ANALYSES in
     let* _ := removeItem_DASHBOARD_DATA in
     ret true)
    (ret false).

(** [JSON.stringify(data, null, 2)] of the collection, the summary and
    the time of the export. *)
Definition exportData : Eff (Text ExportData) :=
  let* analyses := getAll in
  let* dashboardData := getDashboardData in
  let* exportedAt := Date_now in
  ret (Json {| e_analyses := AnalysesArray analyses;
               e_dashboardData := Some dashboardData;
               e_exportedAt := Some exportedAt |}).

Definition importData (jsonData : Text ExportData) : Eff bool :=
  try_catch
    (let* data := JSON_parse jsonData in
     match e_analyses data with
     | AnalysesArray analyses =>
         let* _ := setItem_ANALYSES (Json analyses) in
         let* _ := updateDashboardStats in
         ret true
     | _ => ret false
     end)
    (ret false).

End WithHost.
End AnalysisStorage.

(** ** The cache façade *)

(** Modelled from the spec: the operations of [@/lib/cache/analysisCache]
    (not among the sources), as the specification gives them: lookup of a
    record or of a list result, absent once its time-to-live has passed;
    store; invalidation of one record; invalidation of every list.  The
    time-to-live is the five minutes [analysisStore.ts] mentions. *)
Module analysisCache.

Definition TTL : Z := 5 * 60 * 1000.

Definition fresh {A} (now : Z) (e : A * Z) : option A :=
  if now <? snd e + TTL then Some (fst e) else None.

Definition get (i : string) : Eff (option SavedAnalysis) :=
  fun w => (Returned (entries (cache w) !! i ≫= fresh (clock w)), w).

Definition set (i : string) (a : SavedAnalysis) : Eff unit :=
  fun w =>
    (Returned tt,
     set_cache {| entries := <[i := (a, clock w)]> (entries (cache w));
                  lists := lists (cache w) |} w).

Definition invalidate (i : string) : Eff unit :=
  fun w =>
    (Returned tt,
     set_cache {| entries := base.delete i (entries (cache w));
                  lists := lists (cache w) |} w).

Definition getList (key : string) : Eff (option (list SavedAnalysis)) :=
  fun w => (Returned (lists (cache w) !! key ≫= fresh (clock w)), w).

Definition setList (key : string) (l : list SavedAnalysis) : Eff unit :=
  fun w =>
    (Returned tt,
     set_cache {| entries := entries (cache w);
                  lists := <[key := (l, clock w)]> (lists (cache w)) |} w).

Definition invalidateLists : Eff unit :=
  fun w =>
    (Returned tt,
     set_cache {| entries := entries (cache w); lists := ∅ |} w).

End analysisCache.

(** ** [src/lib/analysisStore.ts] *)

Module analysisStore.
Section WithHost.
Context `{Host}.

(** The key of the unfiltered list, [{}]. *)
Definition noFilters : string := "{}".

(** The application starts without example data. *)
Definition initializeWithExampleData : Eff unit := ret tt.

Definition getAllAnalyses : Eff (list SavedAnalysis) :=
  let* cached := analysisCache.getList noFilters in
  match cached with
  | Some l => ret l
  | None =>
      let* _ := initializeWithExampleData in
      let* result := AnalysisStorage.getAll in
      let* _ := analysisCache.setList noFilters result in
      ret result
  end.

Definition getAnalysisById (i : string) : Eff (option SavedAnalysis) :=
  let* cached := analysisCache.get i in
  match cached with
  | Some a => ret (Some a)
  | None =>
      let* result := AnalysisStorage.getById i in
      let* _ := match result with
                | Some a => analysisCache.set i a
                | None => ret tt
                end in
      ret result
  end.

Definition saveAnalysis (a : SavedAnalysis) : Eff SavedAnalysis :=
  let* success := AnalysisStorage.save a in
  if success then
    let* _ := analysisCache.set (id a) a in
    let* _ := analysisCache.invalidateLists in
    let* t := Date_now in
    let* _ := AnalysisStorage.addDashboardActivity
      {| act_id := "save_" +:+ pretty t;
         act_type := analysis_created;
         act_title := "Análisis guardado";
         act_description := quoted (title a) +:+ " guardado exitosamente";
         act_date := t;
         act_property_address := Some (address (property a)) |} in
    ret a
  else throw.

Definition deleteAnalysis (i : string) : Eff bool :=
  let* found := AnalysisStorage.getById i in
  let* success := AnalysisStorage.delete i in
  let* _ :=
    if success then
      let* _ := analysisCache.invalidate i in
      let* _ := analysisCache.invalidateLists in
      match found with
      | Some a =>
          let* t := Date_now in
          AnalysisStorage.addDashboardActivity
            {| act_id := "delete_" +:+ pretty t;
               act_type := analysis_created;
               act_title := "Análisis eliminado";
               act_description := quoted (title a) +:+ " fue eliminado";
               act_date := t;
               act_property_address := Some (address (property a)) |}
      | None => ret tt
      end
    else ret tt in
  ret success.

(** [{ ...existing, ...updates.metadata }]: a key of the update wins;
    the optional keys [tags] and [notes] win when they are present. *)
Definition spreadMetadata (existing updates : Metadata) : Metadata :=
  {| created_at := created_at updates;
     updated_at := updated_at updates;
     broker_email := broker_email updates;
     status := status updates;
     tags := match tags updates with Some t => Some t | None => tags existing end;
     notes := match notes updates with Some n => Some n | None => notes existing end |}.

(** [{ ...existing, ...updates, metadata: { ...existing.metadata,
      ...updates.metadata, updated_at: now } }] *)
Definition mergeUpdates (now : Z) (existing : SavedAnalysis)
    (updates : PartialSavedAnalysis) : SavedAnalysis :=
  {| id := default (id existing) (p_id updates);
     title := default (title existing) (p_title updates);
     property := default (property existing) (p_property updates);
     analysis := default (analysis existing) (p_analysis updates);
     calculations := default (calculations existing) (p_calculations updates);
     metadata :=
       with_updated_at now
         match p_metadata updates with
         | Some m => spreadMetadata (metadata existing) m
         | None => metadata existing
         end |}.

Definition updateAnalysis (i : string) (updates : PartialSavedAnalysis)
    : Eff (option SavedAnalysis) :=
  let* existingAnalysis := AnalysisStorage.getById i in
  match existingAnalysis with
  | Some existing =>
      let* now := Date_now in
      let updatedAnalysis := mergeUpdates now existing updates in
      let* success := AnalysisStorage.save updatedAnalysis in
      if success then
        let* _ := analysisCache.set i updatedAnalysis in
        let* _ := analysisCache.invalidateLists in
        ret (Some updatedAnalysis)
      else ret None
  | None => ret None
  end.

Definition updateAnalysisStatus (i : string) (s : Status) : Eff bool :=
  let* success := AnalysisStorage.updateStatus i s in
  let* _ :=
    if success then
      let* _ := analysisCache.invalidate i in
      analysisCache.invalidateLists
    else ret tt in
  ret success.

End WithHost.
End analysisStore.

(** ** [src/app/api/analyses/route.ts]: the list query *)

Module AnalysesRoute.
Section WithHost.
Context `{Host}.

(** Truthiness of a number and of a string in [if (x)]. *)
Definition truthy (n : Z) : bool := negb (n =? 0).
Definition nonempty (s : string) : bool := negb (String.eqb s "").

Definition date_ge (t : Z) (d : JsDate) : bool :=
  match d with ValidDate u => u <=? t | InvalidDate => false end.

Definition date_le (t : Z) (d : JsDate) : bool :=
  match d with ValidDate u => t <=? u | InvalidDate => false end.

Definition matchesSearch (searchLower : string) (a : SavedAnalysis) : bool :=
  String_includes (String_toLowerCase (title a)) searchLower ||
  String_includes (String_toLowerCase (address (property a))) searchLower.

(** [s.split(',')] *)
Fixpoint split_comma (s : string) : list string :=
  match s with
  | EmptyString => [EmptyString]
  | String c s' =>
      if Ascii.eqb c ","%char then EmptyString :: split_comma s'
      else
        match split_comma s' with
        | piece :: pieces => String c piece :: pieces
        | [] => [String c EmptyString]
        end
  end.

(** [searchParams.get('tags')?.split(',') || undefined], on what
    [searchParams.get('tags')] gave. *)
Definition parseTags (param : option string) : option (list string) :=
  option_map split_comma param.

(** [filters.tags.some(tag => analysis.metadata.tags?.includes(tag))] *)
Definition matchesTags (filterTags : list string) (a : SavedAnalysis) : bool :=
  existsb
    (fun tag =>
       match tags (metadata a) with
       | Some ts => Array_includes ts tag
       | None => false
       end)
    filterTags.

(** The statement [if (x) { filtered = filtered.filter(p) }] for an
    optional field [x] of the filters: the filter is applied when the
    field is set and truthy, and skipped otherwise. *)
Definition filterWhen {B} (x : option B) (isTruthy : B -> bool)
    (p : B -> SavedAnalysis -> bool) (filtered : list SavedAnalysis)
    : list SavedAnalysis :=
  match x with
  | Some v => if isTruthy v then List.filter (p v) filtered else filtered
  | None => filtered
  end.

Definition applyFilters (filters : AnalysisFilters)
    (analyses : list SavedAnalysis) : list SavedAnalysis :=
  let filtered := analyses in
  let filtered :=
    filterWhen (search filters) nonempty
      (fun s => matchesSearch (String_toLowerCase s)) filtered in
  let filtered :=
    filterWhen (f_status filters) (fun _ => true)
      (fun st a => bool_decide (status (metadata a) = st)) filtered in
  let filtered :=
    filterWhen (minValue filters) truthy
      (fun v a => v <=? value_clp (property a)) filtered in
  let filtered :=
    filterWhen (maxValue filters) truthy
      (fun v a => value_clp (property a) <=? v) filtered in
  let filtered :=
    filterWhen (f_bedrooms filters) truthy
      (fun n a => bedrooms (property a) =? n) filtered in
  let filtered :=
    filterWhen (f_bathrooms filters) truthy
      (fun n a => bathrooms (property a) =? n) filtered in
  let filtered :=
    filterWhen (f_tags filters) (fun ts => 0 <? Z.of_nat (length ts))
      matchesTags filtered in
  let filtered :=
    filterWhen (dateFrom filters) (fun _ => true)
      (fun d a => date_ge (created_at (metadata a)) d) filtered in
  let filtered :=
    filterWhen (dateTo filters) (fun _ => true)
      (fun d a => date_le (created_at (metadata a)) d) filtered in
  filtered.

(** [aValue < bValue] for the values the [switch] on [sortBy] picks. *)
Definition sortValue_lt (filters : AnalysisFilters) (a b : SavedAnalysis) : bool :=
  match sortBy filters with
  | Some by_title => String.ltb (title a) (title b)
  | Some by_property_value => value_clp (property a) <? value_clp (property b)
  | Some by_created_at => created_at (metadata a) <? created_at (metadata b)
  | Some by_updated_at | None =>
      updated_at (metadata a) <? updated_at (metadata b)
  end.

(** The comparison function handed to [sort]. *)
Definition compareFn (filters : AnalysisFilters) (a b : SavedAnalysis) : Z :=
  match sortOrder filters with
  | Some asc => if sortValue_lt filters b a then 1 else -1
  | _ => if sortValue_lt filters a b then 1 else -1
  end.

(** The body of [GET] from the filters on: filter, sort, paginate. *)
Definition listResponse (filters : AnalysisFilters) (page pageSize : Z)
    (analyses : list SavedAnalysis) : AnalysisListResponse :=
  let filteredAnalyses := applyFilters filters analyses in
  let filteredAnalyses := Array_sort (compareFn filters) filteredAnalyses in
  let startIndex := (page - 1) * pageSize in
  let endIndex := startIndex + pageSize in
  let paginatedAnalyses := Array_slice filteredAnalyses startIndex endIndex in
  {| analyses := paginatedAnalyses;
     total := Z.of_nat (length filteredAnalyses);
     page := page;
     pageSize := pageSize;
     hasMore := endIndex <? Z.of_nat (length filteredAnalyses) |}.

Inductive ListResult :=
| Ok200 (response : AnalysisListResponse)
| InternalServerError500.

Definition GET (filters : AnalysisFilters) (page pageSize : Z) : Eff ListResult :=
  try_catch
    (let* analyses := analysisStore.getAllAnalyses in
     ret (Ok200 (listResponse filters page pageSize analyses)))
    (ret InternalServerError500).

End WithHost.
End AnalysesRoute.

(** ** [src/app/api/analyses/[id]/route.ts]: deleting one analysis *)

Module AnalysisRoute.
Section WithHost.
Context `{Host}.



Inductive GetResult :=
| GetBadRequest400
| GetNotFound404
| GetInternalServerError500
| Found200 (a : SavedAnalysis).

Definition GET (i : string) : Eff GetResult :=
  try_catch
    (if String.eqb i "" then ret GetBadRequest400 else
     let* found := analysisStore.getAnalysisById i in
     match found with
     | None => ret GetNotFound404
     | Some a => ret (Found200 a)
     end)
    (ret GetInternalServerError500).

(** One entry of the body of a [PATCH] request, in the order of
    [Object.entries(body)]: one of the four keys the handler accepts,
    with a value of the type of the field, or any other key. *)
Inductive PatchEntry :=
| PatchStatus (s : Status)
| PatchTags (t : list string)
| PatchNotes (n : string)
| PatchTitle (t : string)
| PatchOther (key : string).

Definition noUpdates : PartialSavedAnalysis :=
  {| p_id := None; p_title := None; p_property := None;
     p_analysis := None; p_calculations := None; p_metadata := None |}.

Definition setUpdatesMetadata (m : Metadata) (updates : PartialSavedAnalysis)
    : PartialSavedAnalysis :=
  {| p_id := p_id updates; p_title := p_title updates;
     p_property := p_property updates; p_analysis := p_analysis updates;
     p_calculations := p_calculations updates; p_metadata := Some m |}.

Definition setUpdatesTitle (t : string) (updates : PartialSavedAnalysis)
    : PartialSavedAnalysis :=
  {| p_id := p_id updates; p_title := Some t;
     p_property := p_property updates; p_analysis := p_analysis updates;
     p_calculations := p_calculations updates; p_metadata := p_metadata updates |}.

(** The body of the loop over the entries. *)
Definition patchEntry (now : Z) (existing : SavedAnalysis)
    (updates : PartialSavedAnalysis) (entry : PatchEntry) : PartialSavedAnalysis :=
  match entry with
  | PatchStatus s =>
      setUpdatesMetadata
        (with_updated_at now (with_status s (metadata existing))) updates
  | PatchTags t =>
      setUpdatesMetadata
        (with_updated_at now (with_metadata_tags t (metadata existing))) updates
  | PatchNotes n =>
      setUpdatesMetadata
        (with_updated_at now (with_metadata_notes n (metadata existing))) updates
  | PatchTitle t => setUpdatesTitle t updates
  | PatchOther _ => updates
  end.

(** The record [PATCH] saves and answers with. *)
Definition patched (now : Z) (existing : SavedAnalysis) (body : list PatchEntry)
    : SavedAnalysis :=
  analysisStore.mergeUpdates now existing
    (fold_left (patchEntry now existing) body noUpdates).

Inductive PatchResult :=
| PatchBadRequest400
| PatchNotFound404
| PatchInternalServerError500
| Patched200 (a : SavedAnalysis).

Definition PATCH (i : string) (body : list PatchEntry) : Eff PatchResult :=
  try_catch
    (if String.eqb i "" then ret PatchBadRequest400 else
     let* found := analysisStore.getAnalysisById i in
     match found with
     | None => ret PatchNotFound404
     | Some existing =>
         let* now := Date_now in
         let updatedAnalysis := patched now existing body in
         let* _ := analysisStore.saveAnalysis updatedAnalysis in
         ret (Patched200 updatedAnalysis)
     end)
    (ret PatchInternalServerError500).

End WithHost.
End AnalysisRoute.

(** ** [src/app/dashboard/page.tsx]: the list of the dashboard *)

Module DashboardPage.

Inductive Filter := all | recent | active | draft_only.

(** The callback of [analyses.filter], at the time [now]. *)
Definition keeps (filter : Filter) (now : Z) (a : SavedAnalysis) : bool :=
  match filter with
  | all => true
  | recent => now - 24 * 60 * 60 * 1000 <? created_at (metadata a)
  | active =>
      bool_decide (status (metadata a) = sent_to_client) ||
      bool_decide (status (metadata a) = published) ||
      bool_decide (status (metadata a) = client_responded)
  | draft_only => bool_decide (status (metadata a) = draft)
  end.

Definition filteredAnalyses (filter : Filter) (now : Z)
    (analyses : list SavedAnalysis) : list SavedAnalysis :=
  List.filter (keeps filter now) analyses.

End DashboardPage.

(** ** The comparable properties of the form (component
    [ComparableProperties]) *)

Module ComparableProperties.

(** The names of the form fields of one comparable. *)
Definition fields : list string :=
  ["link"; "address"; "m2"; "bedrooms"; "bathrooms"; "parking"; "storage"; "price"].

Definition fieldName (index : Z) (field : string) : string :=
  "comparable_" +:+ pretty index +:+ "_" +:+ field.

(** The state the two handlers work on: the active comparables and
    the values of the form. *)
Record State := {
  activeComparables : list Z;
  formValues : gmap string string }.

Definition initialState (form : gmap string string) : State :=
  {| activeComparables := [1]; formValues := form |}.

Definition addComparable (index : Z) (st : State) : State :=
  if existsb (Z.eqb index) (activeComparables st)
  then st
  else {| activeComparables := activeComparables st ++ [index];
          formValues := formValues st |}.

Definition removeComparable (index : Z) (st : State) : State :=
  if 1 <? Z.of_nat (length (activeComparables st))
  then {| activeComparables :=
            List.filter (fun i => negb (i =? index)) (activeComparables st);
          formValues :=
            fold_left (fun form field => <[fieldName index field := ""]> form)
              fields (formValues st) |}
  else st.

End ComparableProperties.

(** ** The sort of V8

    Node.js runs the route handlers on V8, whose [Array.prototype.sort]
    is TimSort.  For an array of fewer than 64 elements that is: find
    the run the array starts with (reversing it when it is strictly
    descending), then insert the remaining elements one by one, each at
    the position a binary search finds.  On longer arrays V8 does this
    per chunk and merges the chunks, which gives the same result when
    the comparison function is consistent. *)

Module V8.
Section Sort.
Context {A : Type} (comparefn : A -> A -> Z).

(** The rest of a strictly descending run: elements keep joining
    while [comparefn current previous < 0]. *)
Fixpoint descendingRun (previous : A) (l : list A) : list A * list A :=
  match l with
  | [] => ([], [])
  | current :: l' =>
      if comparefn current previous <? 0
      then let (run, rest) := descendingRun current l' in (current :: run, rest)
      else ([], l)
  end.

(** The rest of an ascending run: elements keep joining while
    [comparefn current previous >= 0]. *)
Fixpoint ascendingRun (previous : A) (l : list A) : list A * list A :=
  match l with
  | [] => ([], [])
  | current :: l' =>
      if comparefn current previous <? 0
      then ([], l)
      else let (run, rest) := ascendingRun current l' in (current :: run, rest)
  end.

(** [CountAndMakeRun]: the initial run, made ascending, and what follows it. *)
Definition CountAndMakeRun (l : list A) : list A * list A :=
  match l with
  | [] => ([], [])
  | [x] => ([x], [])
  | x :: y :: l' =>
      if comparefn y x <? 0
      then let (run, rest) := descendingRun y l' in (rev (x :: y :: run), rest)
      else let (run, rest) := ascendingRun y l' in (x :: y :: run, rest)
  end.

(** The binary search of [BinaryInsertionSort] for the place of
    [pivot] in [sorted], between [left] and [right]. *)
Fixpoint searchPlace (steps : nat) (sorted : list A) (pivot : A)
    (left right : nat) : nat :=
  match steps with
  | O => left
  | S steps' =>
      if (left <? right)%nat then
        let mid := (left + (right - left) / 2)%nat in
        match sorted !! mid with
        | Some x =>
            if comparefn pivot x <? 0
            then searchPlace steps' sorted pivot left mid
            else searchPlace steps' sorted pivot (mid + 1)%nat right
        | None => left
        end
      else left
  end.

Definition insertPivot (sorted : list A) (pivot : A) : list A :=
  let place := searchPlace (S (length sorted)) sorted pivot 0 (length sorted) in
  take place sorted ++ pivot :: drop place sorted.

Definition BinaryInsertionSort (run rest : list A) : list A :=
  fold_left insertPivot rest run.

Definition sort (l : list A) : list A :=
  let (run, rest) := CountAndMakeRun l in
  BinaryInsertionSort run rest.

End Sort.

(** V8 as the host of the code: its sort, and its lower-casing, which
    is that of the Unicode tables and is taken as given. *)
Definition host (toLowerCase : string -> string) : Host :=
  {| Array_sort := @sort; String_toLowerCase := toLowerCase |}.

End V8.

(** ** Vocabulary of the statements *)

Section Vocabulary.
Context `{Host}.

(** What [getAll] reads: the stored collection, empty when the store
    is unavailable, the key is not set, or its text does not parse. *)
Definition storedAnalyses (w : World) : list SavedAnalysis :=
  if storage_available w then
    match rental_analyses (localStorage w) with
    | Some (Json l) => l
    | _ => []
    end
  else [].

(** The world after [setItem(ANALYSES, JSON.stringify(l))]. *)
Definition with_analyses (l : list SavedAnalysis) (w : World) : World :=
  set_localStorage
    {| rental_analyses := Some (Json l);
       dashboard_data := dashboard_data (localStorage w) |} w.

(** The world after [setItem(DASHBOARD_DATA, JSON.stringify(d))]. *)
Definition with_dashboard (d : DashboardData) (w : World) : World :=
  set_localStorage
    {| rental_analyses := rental_analyses (localStorage w);
       dashboard_data := Some (Json d) |} w.

(** Two worlds that differ at most in the dashboard summary. *)
Definition keeps_analyses (w w' : World) : Prop :=
  storage_available w' = storage_available w /\
  rental_analyses (localStorage w') = rental_analyses (localStorage w) /\
  cache w' = cache w /\
  clock w' = clock w.

(** The summary [updateDashboardStats] derives from a collection. *)
Definition dashboardStats (l : list SavedAnalysis) : DashboardData :=
  {| totalAnalyses := Z.of_nat (length l);
     activeRentals := Z.of_nat (length (List.filter AnalysisStorage.isActive l));
     totalRevenue := AnalysisStorage.sumRent l;
     averageRentability :=
       if 0 <? Z.of_nat (length l)
       then (AnalysisStorage.sumCapRate l / Qc_of_Z (Z.of_nat (length l)))%Qc
       else 0%Qc;
     recentActivity :=
       Array_slice
         (Array_sort (fun a b => act_date b - act_date a)
            (flat_map AnalysisStorage.activitiesOf l)) 0 20 |}.

(** The collection [save] writes back: the record replaces, with a
    fresh [updated_at], the first one of the same id, or is appended. *)
Definition upsert (now : Z) (a : SavedAnalysis) (l : list SavedAnalysis)
    : list SavedAnalysis :=
  match findIndex (same_id (id a)) l with
  | Some existingIndex =>
      <[existingIndex := with_metadata (with_updated_at now (metadata a)) a]> l
  | None => l ++ [a]
  end.

(** The record [updateStatus] writes in place of [a]. *)
Definition restamp (now : Z) (s : Status) (a : SavedAnalysis) : SavedAnalysis :=
  with_metadata (with_updated_at now (with_status s (metadata a))) a.

(** What a mutation leaves behind: the stored collection [l] and the
    cache [c], at the same clock reading. *)
Definition leaves (w w' : World) (l : list SavedAnalysis) (c : Cache) : Prop :=
  storage_available w' = storage_available w /\
  storedAnalyses w' = l /\
  cache w' = c /\
  clock w' = clock w.

(** Whether a record survives one [filterWhen] statement. *)
Definition passWhen {B} (x : option B) (isTruthy : B -> bool)
    (p : B -> SavedAnalysis -> bool) (a : SavedAnalysis) : bool :=
  match x with
  | Some v => if isTruthy v then p v a else true
  | None => true
  end.

(** The predicate a record has to pass: the conjunction of the
    filters that are set. *)
Definition passes (filters : AnalysisFilters) (a : SavedAnalysis) : bool :=
  passWhen (search filters) AnalysesRoute.nonempty
    (fun s => AnalysesRoute.matchesSearch (String_toLowerCase s)) a &&
  passWhen (f_status filters) (fun _ => true)
    (fun st a => bool_decide (status (metadata a) = st)) a &&
  passWhen (minValue filters) AnalysesRoute.truthy
    (fun v a => v <=? value_clp (property a)) a &&
  passWhen (maxValue filters) AnalysesRoute.truthy
    (fun v a => value_clp (property a) <=? v) a &&
  passWhen (f_bedrooms filters) AnalysesRoute.truthy
    (fun n a => bedrooms (property a) =? n) a &&
  passWhen (f_bathrooms filters) AnalysesRoute.truthy
    (fun n a => bathrooms (property a) =? n) a &&
  passWhen (f_tags filters) (fun ts => 0 <? Z.of_nat (length ts))
    AnalysesRoute.matchesTags a &&
  passWhen (dateFrom filters) (fun _ => true)
    (fun d a => AnalysesRoute.date_ge (created_at (metadata a)) d) a &&
  passWhen (dateTo filters) (fun _ => true)
    (fun d a => AnalysesRoute.date_le (created_at (metadata a)) d) a.

End Vocabulary.

(** ** Filters and sample records

    The filters of a request without query parameters, the single-field
    variations of a filter record, and a few concrete analyses. *)

(** [GET] on a URL without parameters: only the sort defaults are set. *)
Definition defaultFilters : AnalysisFilters :=
  {| search := None; f_status := None; dateFrom := None; dateTo := None;
     minValue := None; maxValue := None; f_bedrooms := None; f_bathrooms := None;
     f_tags := None; sortBy := Some by_updated_at; sortOrder := Some desc |}.

Definition with_search (v : option string) (f : AnalysisFilters) : AnalysisFilters :=
  {| search := v; f_status := f_status f; dateFrom := dateFrom f; dateTo := dateTo f;
     minValue := minValue f; maxValue := maxValue f; f_bedrooms := f_bedrooms f;
     f_bathrooms := f_bathrooms f; f_tags := f_tags f; sortBy := sortBy f;
     sortOrder := sortOrder f |}.

Definition with_minValue (v : option Z) (f : AnalysisFilters) : AnalysisFilters :=
  {| search := search f; f_status := f_status f; dateFrom := dateFrom f; dateTo := dateTo f;
     minValue := v; maxValue := maxValue f; f_bedrooms := f_bedrooms f;
     f_bathrooms := f_bathrooms f; f_tags := f_tags f; sortBy := sortBy f;
     sortOrder := sortOrder f |}.

Definition with_maxValue (v : option Z) (f : AnalysisFilters) : AnalysisFilters :=
  {| search := search f; f_status := f_status f; dateFrom := dateFrom f; dateTo := dateTo f;
     minValue := minValue f; maxValue := v; f_bedrooms := f_bedrooms f;
     f_bathrooms := f_bathrooms f; f_tags := f_tags f; sortBy := sortBy f;
     sortOrder := sortOrder f |}.

Definition with_bedrooms (v : option Z) (f : AnalysisFilters) : AnalysisFilters :=
  {| search := search f; f_status := f_status f; dateFrom := dateFrom f; dateTo := dateTo f;
     minValue := minValue f; maxValue := maxValue f; f_bedrooms := v;
     f_bathrooms := f_bathrooms f; f_tags := f_tags f; sortBy := sortBy f;
     sortOrder := sortOrder f |}.

Definition with_bathrooms (v : option Z) (f : AnalysisFilters) : AnalysisFilters :=
  {| search := search f; f_status := f_status f; dateFrom := dateFrom f; dateTo := dateTo f;
     minValue := minValue f; maxValue := maxValue f; f_bedrooms := f_bedrooms f;
     f_bathrooms := v; f_tags := f_tags f; sortBy := sortBy f;
     sortOrder := sortOrder f |}.

Definition with_tags (v : option (list string)) (f : AnalysisFilters) : AnalysisFilters :=
  {| search := search f; f_status := f_status f; dateFrom := dateFrom f; dateTo := dateTo f;
     minValue := minValue f; maxValue := maxValue f; f_bedrooms := f_bedrooms f;
     f_bathrooms := f_bathrooms f; f_tags := v; sortBy := sortBy f;
     sortOrder := sortOrder f |}.

(** The lower-casing of ASCII text, [A] to [Z] onto [a] to [z]: what
    [toLowerCase] does to the titles, addresses and search texts of the
    examples, which are ASCII text. *)
Definition lower_ascii (c : ascii) : ascii :=
  let n := nat_of_ascii c in
  if ((65 <=? n)%nat && (n <=? 90)%nat)%bool then ascii_of_nat (n + 32) else c.

Fixpoint toLowerCase_ASCII (s : string) : string :=
  match s with
  | EmptyString => EmptyString
  | String c s' => String (lower_ascii c) (toLowerCase_ASCII s')
  end.

(** The host of the examples: V8, with that lower-casing. *)
Definition asciiHost : Host := V8.host toLowerCase_ASCII.

(** An analysis of a two-bedroom flat; the arguments are what the
    examples vary. *)
Definition sampleAnalysis (i : string) (st : Status) (ts : option (list string))
    (created updated : Z) : SavedAnalysis :=
  {| id := i;
     title := "Departamento " +:+ i;
     property :=
       {| address := "Av. Providencia 123"; value_clp := 95000000;
          value_uf := Some 2500; size_m2 := 75; bedrooms := 2; bathrooms := 2;
          parking_spaces := 1; storage_units := 1 |};
     analysis :=
       {| suggested_rent_clp := Some 850000; suggested_rent_uf := None;
          rent_currency := CLP; capture_price_clp := Some 850000;
          annual_expenses :=
            {| maintenance_clp := 1200000; property_tax_clp := 800000;
               insurance_clp := 300000 |};
          uf_value_clp := 38000 |};
     calculations :=
       {| cap_rate := 0%Qc; annual_rental_yield := 0%Qc;
          monthly_net_income := 658333; vacancy_cost_per_month := 70833;
          break_even_rent_reduction := 0%Qc |};
     metadata :=
       {| created_at := created; updated_at := updated;
          broker_email := "corredor@ejemplo.com"; status := st;
          tags := ts; notes := None |} |}.

(** Records tagged [['a','b']], [['c']] and [[]]. *)
Definition taggedAB : SavedAnalysis :=
  sampleAnalysis "ab" draft (Some ["a"; "b"]) 1000 3000.
Definition taggedC : SavedAnalysis :=
  sampleAnalysis "c" draft (Some ["c"]) 1000 2000.
Definition untagged : SavedAnalysis :=
  sampleAnalysis "none" draft (Some []) 1000 1000.

(** Two records last updated at the same instant. *)
Definition firstTied : SavedAnalysis :=
  sampleAnalysis "first" draft None 1000 5000.
Definition secondTied : SavedAnalysis :=
  sampleAnalysis "second" draft None 2000 5000.

(** Twelve records, updated one after the other. *)
Definition twelve : list SavedAnalysis :=
  map (fun n => sampleAnalysis (pretty n) draft None 0 (Z.of_nat n)) (seq 0 12).

(** A record whose [updated_at] lies in the past, and a stored record
    with a partial update that carries an id and a creation time. *)
Definition staleRecord : SavedAnalysis :=
  sampleAnalysis "new" draft None 100 200.

Definition storedRecord : SavedAnalysis :=
  sampleAnalysis "a1" draft None 1000 2000.

Definition renamingUpdate : PartialSavedAnalysis :=
  {| p_id := Some "other"; p_title := None; p_property := None;
     p_analysis := None; p_calculations := None; p_metadata := None |}.

Definition redatingUpdate : PartialSavedAnalysis :=
  {| p_id := None; p_title := None; p_property := None;
     p_analysis := None; p_calculations := None;
     p_metadata :=
       Some {| created_at := 7777; updated_at := 1;
               broker_email := "corredor@ejemplo.com"; status := draft;
               tags := None; notes := None |} |}.

Definition retitlingUpdate : PartialSavedAnalysis :=
  {| p_id := None; p_title := Some "Casa Providencia"; p_property := None;
     p_analysis := None; p_calculations := None;
     p_metadata :=
       Some {| created_at := 1000; updated_at := 1;
               broker_email := "corredor@ejemplo.com"; status := archived;
               tags := Some ["casa"]; notes := None |} |}.

Definition publishedRecord : SavedAnalysis :=
  sampleAnalysis "pub" published None 1000 2000.

Definition emptyCache : Cache := {| entries := ∅; lists := ∅ |}.

(** A browser with the given collection stored, nothing cached. *)
Definition browser (l : list SavedAnalysis) (now : Z) : World :=
  {| storage_available := true;
     localStorage := {| rental_analyses := Some (Json l); dashboard_data := None |};
     cache := emptyCache;
     clock := now |}.

(** A browser in which the unfiltered list was cached at [now]. *)
Definition browserWithCachedList (l : list SavedAnalysis) (now : Z) : World :=
  {| storage_available := true;
     localStorage := {| rental_analyses := Some (Json l); dashboard_data := None |};
     cache := {| entries := ∅; lists := {[ "{}" := (l, now) ]} |};
     clock := now |}.

(** The server, where there is no [window]. *)
Definition server (now : Z) : World :=
  {| storage_available := false;
     localStorage := {| rental_analyses := None; dashboard_data := None |};
     cache := emptyCache;
     clock := now |}.

(** ** Vocabulary of the further properties *)

(** The entries of a [PATCH] body that assign [updates.metadata]. *)
Definition touchesMetadata (entry : AnalysisRoute.PatchEntry) : bool :=
  match entry with
  | AnalysisRoute.PatchStatus _
  | AnalysisRoute.PatchTags _
  | AnalysisRoute.PatchNotes _ => true
  | _ => false
  end.

(** The entries of a [PATCH] body the handler does not look at. *)
Definition isOtherKey (entry : AnalysisRoute.PatchEntry) : bool :=
  match entry with
  | AnalysisRoute.PatchOther _ => true
  | _ => false
  end.

(** What the loop of [PATCH] over the body keeps true of [updates]. *)
Definition patchInvariant (existing : SavedAnalysis)
    (updates : PartialSavedAnalysis) : Prop :=
  p_id updates = None /\
  p_property updates = None /\
  p_analysis updates = None /\
  p_calculations updates = None /\
  forall m, p_metadata updates = Some m ->
    created_at m = created_at (metadata existing) /\
    broker_email m = broker_email (metadata existing).

(** A click in the component [ComparableProperties]: on the button that
    adds the comparable [index], or on the one that removes it. *)
Inductive Click := ClickAdd (index : Z) | ClickRemove (index : Z).

Definition handleClick (st : ComparableProperties.State) (c : Click)
    : ComparableProperties.State :=
  match c with
  | ClickAdd index => ComparableProperties.addComparable index st
  | ClickRemove index => ComparableProperties.removeComparable index st
  end.

Definition handleClicks (cs : list Click) (st : ComparableProperties.State)
    : ComparableProperties.State :=
  fold_left handleClick cs st.

(** * Properties *)

(** ** Running effectful code *)

Lemma bind_run {A B} (m : Eff A) (k : A -> Eff B) w a w' :
  m w = (Returned a, w') -> bind m k w = k a w'.
Proof. intros E. unfold bind. now rewrite E. Qed.

Lemma try_catch_run {A} (m h : Eff A) w a w' :
  m w = (Returned a, w') -> try_catch m h w = (Returned a, w').
Proof. intros E. unfold try_catch. now rewrite E. Qed.

Lemma isLocalStorageAvailable_run w :
  isLocalStorageAvailable w = (Returned (storage_available w), w).
Proof.
  unfold isLocalStorageAvailable, try_catch, bind, probe_test_key, localStorage_read, ret.
  now destruct (storage_available w).
Qed.

Lemma keeps_analyses_refl w : keeps_analyses w w.
Proof. now unfold keeps_analyses. Qed.

Lemma keeps_analyses_trans w1 w2 w3 :
  keeps_analyses w1 w2 -> keeps_analyses w2 w3 -> keeps_analyses w1 w3.
Proof. unfold keeps_analyses. intuition congruence. Qed.

Lemma keeps_analyses_with_dashboard d w : keeps_analyses w (with_dashboard d w).
Proof. now unfold keeps_analyses. Qed.

Lemma keeps_storedAnalyses w w' :
  keeps_analyses w w' -> storedAnalyses w' = storedAnalyses w.
Proof. intros (Ea & Er & _). unfold storedAnalyses. now rewrite Ea, Er. Qed.

Lemma storedAnalyses_with_analyses l w :
  storage_available w = true -> storedAnalyses (with_analyses l w) = l.
Proof. intros E. unfold storedAnalyses. simpl. now rewrite E. Qed.

(** ** Searching a collection by id *)

Lemma findIndex_Some {A} (p : A -> bool) l k :
  findIndex p l = Some k ->
  exists a, l !! k = Some a /\ p a = true /\ List.find p (take k l) = None.
Proof.
  revert k; induction l as [|x l IH]; intros k; simpl; [discriminate|].
  destruct (p x) eqn:Px.
  - intros [= <-]. exists x. now rewrite Px.
  - destruct (findIndex p l) as [j|]; [|discriminate].
    intros [= <-]. destruct (IH j eq_refl) as (a & La & Pa & F).
    exists a. simpl. now rewrite Px.
Qed.

Lemma findIndex_None {A} (p : A -> bool) l :
  findIndex p l = None -> List.find p l = None.
Proof.
  induction l as [|x l IH]; simpl; [reflexivity|].
  destruct (p x); [discriminate|].
  destruct (findIndex p l); [discriminate|]. auto.
Qed.

Lemma find_app_None {A} (p : A -> bool) l1 l2 :
  List.find p l1 = None -> List.find p (l1 ++ l2) = List.find p l2.
Proof.
  induction l1 as [|x l1 IH]; simpl; [reflexivity|].
  destruct (p x); [discriminate|]. exact IH.
Qed.

(** [find] sees the element written at the index [findIndex] gave. *)
Lemma find_insert_findIndex {A} (p : A -> bool) l k x :
  findIndex p l = Some k -> p x = true ->
  List.find p (<[k := x]> l) = Some x.
Proof.
  intros F Px. destruct (findIndex_Some p l k F) as (a & La & _ & N).
  rewrite insert_take_drop by (now apply lookup_lt_Some in La).
  rewrite find_app_None by exact N. simpl. now rewrite Px.
Qed.


Lemma filter_all_true {A} (p : A -> bool) l :
  Forall (fun a => p a = true) l -> List.filter p l = l.
Proof.
  induction 1 as [|x l Px _ IH]; simpl; [reflexivity|]. now rewrite Px, IH.
Qed.

Section Persistence.
Context `{Host}.

Lemma getAll_run w :
  AnalysisStorage.getAll w = (Returned (storedAnalyses w), w).
Proof.
  unfold AnalysisStorage.getAll, storedAnalyses.
  rewrite (bind_run _ _ _ _ _ (isLocalStorageAvailable_run w)).
  unfold try_catch, bind, getItem_ANALYSES, localStorage_read.
  destruct (storage_available w) eqn:E; simpl; [|reflexivity].
  rewrite E.
  destruct (rental_analyses (localStorage w)) as [[l|]|]; reflexivity.
Qed.

Lemma getById_run i w :
  AnalysisStorage.getById i w =
  (Returned (List.find (same_id i) (storedAnalyses w)), w).
Proof.
  unfold AnalysisStorage.getById.
  now rewrite (bind_run _ _ _ _ _ (getAll_run w)).
Qed.

Lemma getRecentActivity_run w :
  AnalysisStorage.getRecentActivity w =
  (Returned (recentActivity (dashboardStats (storedAnalyses w))), w).
Proof.
  unfold AnalysisStorage.getRecentActivity.
  now rewrite (bind_run _ _ _ _ _ (getAll_run w)).
Qed.

Lemma updateDashboardStats_run w :
  AnalysisStorage.updateDashboardStats w =
  (Returned tt,
   if storage_available w
   then with_dashboard (dashboardStats (storedAnalyses w)) w
   else w).
Proof.
  unfold AnalysisStorage.updateDashboardStats.
  rewrite (bind_run _ _ _ _ _ (getAll_run w)).
  rewrite (bind_run _ _ _ _ _ (getRecentActivity_run w)).
  rewrite (bind_run _ _ _ _ _ (isLocalStorageAvailable_run w)).
  unfold setItem_DASHBOARD_DATA, localStorage_write, ret.
  destruct (storage_available w) eqn:E; cbv beta; [now rewrite E | reflexivity].
Qed.

Lemma setItem_ANALYSES_run l w :
  storage_available w = true ->
  setItem_ANALYSES (Json l) w = (Returned tt, with_analyses l w).
Proof. intros E. unfold setItem_ANALYSES, localStorage_write. now rewrite E. Qed.

Lemma setItem_DASHBOARD_DATA_run d w :
  storage_available w = true ->
  setItem_DASHBOARD_DATA (Json d) w = (Returned tt, with_dashboard d w).
Proof. intros E. unfold setItem_DASHBOARD_DATA, localStorage_write. now rewrite E. Qed.

Lemma save_run a w :
  storage_available w = true ->
  AnalysisStorage.save a w =
  (Returned true,
   let l := upsert (clock w) a (storedAnalyses w) in
   with_dashboard (dashboardStats l) (with_analyses l w)).
Proof.
  intros E. unfold AnalysisStorage.save.
  rewrite (bind_run _ _ _ _ _ (isLocalStorageAvailable_run w)), E. cbn [negb]; cbv iota.
  apply try_catch_run.
  rewrite (bind_run _ _ _ _ _ (getAll_run w)).
  erewrite bind_run; cycle 1.
  { instantiate (1 := w). instantiate (1 := upsert (clock w) a (storedAnalyses w)).
    unfold upsert. now destruct (findIndex _ _). }
  rewrite (bind_run _ _ _ _ _ (setItem_ANALYSES_run _ w E)).
  erewrite bind_run; [|apply updateDashboardStats_run].
  cbn [storage_available with_analyses set_localStorage]. rewrite E.
  now rewrite storedAnalyses_with_analyses.
Qed.

Lemma save_unavailable a w :
  storage_available w = false ->
  AnalysisStorage.save a w = (Returned false, w).
Proof.
  intros E. unfold AnalysisStorage.save.
  now rewrite (bind_run _ _ _ _ _ (isLocalStorageAvailable_run w)), E.
Qed.

Lemma delete_run i w :
  storage_available w = true ->
  AnalysisStorage.delete i w =
  (Returned true,
   let l := List.filter (fun a => negb (same_id i a)) (storedAnalyses w) in
   with_dashboard (dashboardStats l) (with_analyses l w)).
Proof.
  intros E. unfold AnalysisStorage.delete.
  rewrite (bind_run _ _ _ _ _ (isLocalStorageAvailable_run w)), E. cbn [negb]; cbv iota.
  apply try_catch_run.
  rewrite (bind_run _ _ _ _ _ (getAll_run w)).
  rewrite (bind_run _ _ _ _ _ (setItem_ANALYSES_run _ w E)).
  erewrite bind_run; [|apply updateDashboardStats_run].
  cbn [storage_available with_analyses set_localStorage]. rewrite E.
  now rewrite storedAnalyses_with_analyses.
Qed.

Lemma delete_unavailable i w :
  storage_available w = false ->
  AnalysisStorage.delete i w = (Returned false, w).
Proof.
  intros E. unfold AnalysisStorage.delete.
  now rewrite (bind_run _ _ _ _ _ (isLocalStorageAvailable_run w)), E.
Qed.

Lemma getDashboardData_run w :
  exists d w',
    AnalysisStorage.getDashboardData w = (Returned d, w') /\
    keeps_analyses w w' /\
    (storage_available w = false -> d = emptyDashboard /\ w' = w).
Proof.
  unfold AnalysisStorage.getDashboardData.
  rewrite (bind_run _ _ _ _ _ (isLocalStorageAvailable_run w)).
  destruct (storage_available w) eqn:E; cbn [negb]; cbv iota.
  2:{ exists emptyDashboard, w. split; [reflexivity|].
      split; [apply keeps_analyses_refl | tauto]. }
  assert (Hfresh :
    (let* _ := AnalysisStorage.updateDashboardStats in
     let* stored := getItem_DASHBOARD_DATA in
     match stored with
     | Some t => JSON_parse t
     | None => ret emptyDashboard
     end) w =
    (Returned (dashboardStats (storedAnalyses w)),
     with_dashboard (dashboardStats (storedAnalyses w)) w)).
  { erewrite bind_run; [|apply updateDashboardStats_run]. rewrite E.
    unfold bind, getItem_DASHBOARD_DATA, localStorage_read.
    cbn [storage_available with_dashboard set_localStorage]. now rewrite E. }
  erewrite bind_run; cycle 1.
  { instantiate (1 := w).
    instantiate (1 := match dashboard_data (localStorage w) with
                      | Some (Json d) => Some d
                      | _ => None
                      end).
    unfold try_catch, bind, getItem_DASHBOARD_DATA, localStorage_read.
    rewrite E.
    now destruct (dashboard_data (localStorage w)) as [[d|]|]. }
  destruct (dashboard_data (localStorage w)) as [[d|]|] eqn:Ed.
  - exists d, w. split; [reflexivity|].
    split; [apply keeps_analyses_refl | congruence].
  - rewrite Hfresh. do 2 eexists. split; [reflexivity|].
    split; [apply keeps_analyses_with_dashboard | congruence].
  - rewrite Hfresh. do 2 eexists. split; [reflexivity|].
    split; [apply keeps_analyses_with_dashboard | congruence].
Qed.

Lemma addDashboardActivity_run activity w :
  exists w',
    AnalysisStorage.addDashboardActivity activity w = (Returned tt, w') /\
    keeps_analyses w w' /\
    (storage_available w = false -> w' = w).
Proof.
  unfold AnalysisStorage.addDashboardActivity.
  rewrite (bind_run _ _ _ _ _ (isLocalStorageAvailable_run w)).
  destruct (storage_available w) eqn:E; cbn [negb]; cbv iota.
  2:{ exists w. split; [reflexivity|]. split; [apply keeps_analyses_refl | tauto]. }
  destruct (getDashboardData_run w) as (d & w1 & Ed & K & _).
  assert (E1 : storage_available w1 = true) by (destruct K; congruence).
  eexists. split.
  - apply try_catch_run.
    rewrite (bind_run _ _ _ _ _ Ed).
    apply (setItem_DASHBOARD_DATA_run _ w1 E1).
  - split; [|congruence].
    eapply keeps_analyses_trans; [exact K | apply keeps_analyses_with_dashboard].
Qed.

Lemma clearAll_unavailable w :
  storage_available w = false ->
  AnalysisStorage.clearAll w = (Returned false, w).
Proof.
  intros E. unfold AnalysisStorage.clearAll.
  now rewrite (bind_run _ _ _ _ _ (isLocalStorageAvailable_run w)), E.
Qed.

Lemma storedAnalyses_available w a k :
  storedAnalyses w !! k = Some a -> storage_available w = true.
Proof. unfold storedAnalyses. now destruct (storage_available w). Qed.

Lemma updateStatus_found i s w k a :
  findIndex (same_id i) (storedAnalyses w) = Some k ->
  storedAnalyses w !! k = Some a ->
  exists w',
    AnalysisStorage.updateStatus i s w = (Returned true, w') /\
    keeps_analyses
      (with_analyses (<[k := restamp (clock w) s a]> (storedAnalyses w)) w) w'.
Proof.
  intros F L. pose proof (storedAnalyses_available w a k L) as E.
  unfold AnalysisStorage.updateStatus.
  rewrite (bind_run _ _ _ _ _ (getAll_run w)), F, L.
  unfold bind at 1, Date_now.
  set (l' := <[k := _]> (storedAnalyses w)).
  set (w1 := with_analyses l' w).
  edestruct (addDashboardActivity_run) as (w2 & E2 & K & _).
  exists w2. split; [|exact K].
  apply try_catch_run.
  rewrite (bind_run _ _ _ _ _ (setItem_ANALYSES_run l' w E)).
  unfold bind at 1. fold w1.
  now rewrite (bind_run _ _ _ _ _ E2).
Qed.

Lemma updateStatus_missing i s w :
  findIndex (same_id i) (storedAnalyses w) = None ->
  AnalysisStorage.updateStatus i s w = (Returned false, w).
Proof.
  intros F. unfold AnalysisStorage.updateStatus.
  now rewrite (bind_run _ _ _ _ _ (getAll_run w)), F.
Qed.

End Persistence.

(** ** The repository over the cache *)

Section Repository.
Context `{Host}.

Ltac run_activity :=
  match goal with
  | |- context [AnalysisStorage.addDashboardActivity ?act ?w0] =>
      let w' := fresh "w'" in
      let E' := fresh "E'" in
      let K := fresh "K" in
      destruct (addDashboardActivity_run act w0) as (w' & E' & K & _);
      rewrite E'
  end.

Lemma saveAnalysis_run a w :
  storage_available w = true ->
  exists w',
    analysisStore.saveAnalysis a w = (Returned a, w') /\
    leaves w w' (upsert (clock w) a (storedAnalyses w))
      {| entries := <[id a := (a, clock w)]> (entries (cache w)); lists := ∅ |}.
Proof.
  intros E. unfold analysisStore.saveAnalysis.
  rewrite (bind_run _ _ _ _ _ (save_run a w E)). cbv iota zeta.
  unfold bind, analysisCache.set, analysisCache.invalidateLists, Date_now.
  run_activity.
  exists w'. split; [reflexivity|].
  pose proof (keeps_storedAnalyses _ _ K) as Ks.
  destruct K as (Ka & Kr & Kc & Kt).
  unfold leaves. rewrite Ks, Ka, Kc, Kt. cbn. repeat split; try reflexivity.
  unfold storedAnalyses. cbn. now rewrite E.
Qed.

Lemma saveAnalysis_unavailable a w :
  storage_available w = false ->
  analysisStore.saveAnalysis a w = (Thrown, w).
Proof.
  intros E. unfold analysisStore.saveAnalysis.
  now rewrite (bind_run _ _ _ _ _ (save_unavailable a w E)).
Qed.

Lemma deleteAnalysis_run i w :
  storage_available w = true ->
  exists w',
    analysisStore.deleteAnalysis i w = (Returned true, w') /\
    leaves w w' (List.filter (fun a => negb (same_id i a)) (storedAnalyses w))
      {| entries := base.delete i (entries (cache w)); lists := ∅ |}.
Proof.
  intros E. unfold analysisStore.deleteAnalysis.
  rewrite (bind_run _ _ _ _ _ (getById_run i w)).
  rewrite (bind_run _ _ _ _ _ (delete_run i w E)). cbv iota zeta.
  unfold bind at 1.
  assert (G : forall w1 w2, keeps_analyses w1 w2 ->
            leaves w w1 (List.filter (fun a => negb (same_id i a)) (storedAnalyses w))
              {| entries := base.delete i (entries (cache w)); lists := ∅ |} ->
            leaves w w2 (List.filter (fun a => negb (same_id i a)) (storedAnalyses w))
              {| entries := base.delete i (entries (cache w)); lists := ∅ |}).
  { intros w1 w2 K (La & Ls & Lc & Lt). pose proof (keeps_storedAnalyses _ _ K) as Ks.
    destruct K as (Ka & Kr & Kc & Kt). unfold leaves. repeat split; congruence. }
  assert (L0 : forall w0,
            w0 = set_cache {| entries := base.delete i (entries (cache w)); lists := ∅ |}
                   (with_dashboard
                      (dashboardStats (List.filter (fun a => negb (same_id i a)) (storedAnalyses w)))
                      (with_analyses (List.filter (fun a => negb (same_id i a)) (storedAnalyses w)) w)) ->
            leaves w w0 (List.filter (fun a => negb (same_id i a)) (storedAnalyses w))
              {| entries := base.delete i (entries (cache w)); lists := ∅ |}).
  { intros w0 ->. unfold leaves. cbn. repeat split; try reflexivity.
    unfold storedAnalyses. cbn. now rewrite E. }
  unfold bind, analysisCache.invalidate, analysisCache.invalidateLists, Date_now.
  destruct (List.find (same_id i) (storedAnalyses w)) as [a|].
  - run_activity. exists w'. split; [reflexivity|].
    eapply G; [exact K|]. now apply L0.
  - eexists. split; [reflexivity|]. now apply L0.
Qed.

Lemma deleteAnalysis_unavailable i w :
  storage_available w = false ->
  analysisStore.deleteAnalysis i w = (Returned false, w).
Proof.
  intros E. unfold analysisStore.deleteAnalysis.
  rewrite (bind_run _ _ _ _ _ (getById_run i w)).
  now rewrite (bind_run _ _ _ _ _ (delete_unavailable i w E)).
Qed.

Lemma updateAnalysisStatus_found i s w k a :
  findIndex (same_id i) (storedAnalyses w) = Some k ->
  storedAnalyses w !! k = Some a ->
  exists w',
    analysisStore.updateAnalysisStatus i s w = (Returned true, w') /\
    leaves w w' (<[k := restamp (clock w) s a]> (storedAnalyses w))
      {| entries := base.delete i (entries (cache w)); lists := ∅ |}.
Proof.
  intros F L. pose proof (storedAnalyses_available w a k L) as E.
  destruct (updateStatus_found i s w k a F L) as (w1 & E1 & K).
  unfold analysisStore.updateAnalysisStatus.
  rewrite (bind_run _ _ _ _ _ E1). cbv iota.
  unfold bind, analysisCache.invalidate, analysisCache.invalidateLists, ret.
  eexists. split; [reflexivity|].
  pose proof (keeps_storedAnalyses _ _ K) as Ks.
  rewrite storedAnalyses_with_analyses in Ks by exact E.
  destruct K as (Ka & Kr & Kc & Kt). cbn in Ka, Kc, Kt.
  unfold leaves. cbn. rewrite Kc.
  repeat split; assumption.
Qed.

Lemma updateAnalysisStatus_missing i s w :
  findIndex (same_id i) (storedAnalyses w) = None ->
  analysisStore.updateAnalysisStatus i s w = (Returned false, w).
Proof.
  intros F. unfold analysisStore.updateAnalysisStatus.
  now rewrite (bind_run _ _ _ _ _ (updateStatus_missing i s w F)).
Qed.

Lemma updateAnalysis_run i updates existing w :
  storage_available w = true ->
  List.find (same_id i) (storedAnalyses w) = Some existing ->
  let updated := analysisStore.mergeUpdates (clock w) existing updates in
  analysisStore.updateAnalysis i updates w =
  (Returned (Some updated),
   set_cache {| entries := <[i := (updated, clock w)]> (entries (cache w)); lists := ∅ |}
     (let l := upsert (clock w) updated (storedAnalyses w) in
      with_dashboard (dashboardStats l) (with_analyses l w))).
Proof.
  intros E F updated. unfold analysisStore.updateAnalysis.
  rewrite (bind_run _ _ _ _ _ (getById_run i w)), F.
  unfold bind at 1, Date_now. fold updated.
  rewrite (bind_run _ _ _ _ _ (save_run updated w E)). cbv iota.
  reflexivity.
Qed.

(** A list query after the cached lists were dropped reads the store. *)
Lemma getAllAnalyses_miss w :
  lists (cache w) !! analysisStore.noFilters = None ->
  fst (analysisStore.getAllAnalyses w) = Returned (storedAnalyses w).
Proof.
  intros M. unfold analysisStore.getAllAnalyses.
  unfold bind at 1, analysisCache.getList. rewrite M. cbn.
  now rewrite (bind_run _ _ _ _ _ (getAll_run w)).
Qed.

Lemma getAnalysisById_miss i w :
  entries (cache w) !! i = None ->
  fst (analysisStore.getAnalysisById i w) =
  Returned (List.find (same_id i) (storedAnalyses w)).
Proof.
  intros M. unfold analysisStore.getAnalysisById.
  unfold bind at 1, analysisCache.get. rewrite M. cbn.
  rewrite (bind_run _ _ _ _ _ (getById_run i w)).
  now destruct (List.find _ _).
Qed.

End Repository.

(** ** The host sort *)

Lemma V8_descendingRun_app {A} (comparefn : A -> A -> Z) previous l :
  fst (V8.descendingRun comparefn previous l) ++
  snd (V8.descendingRun comparefn previous l) = l.
Proof.
  revert previous; induction l as [|current l IH]; intros previous; simpl.
  - reflexivity.
  - destruct (comparefn current previous <? 0); simpl.
    + specialize (IH current).
      destruct (V8.descendingRun comparefn current l) as [run rest]; simpl in *.
      now rewrite IH.
    + reflexivity.
Qed.

Lemma V8_ascendingRun_app {A} (comparefn : A -> A -> Z) previous l :
  fst (V8.ascendingRun comparefn previous l) ++
  snd (V8.ascendingRun comparefn previous l) = l.
Proof.
  revert previous; induction l as [|current l IH]; intros previous; simpl.
  - reflexivity.
  - destruct (comparefn current previous <? 0); simpl.
    + reflexivity.
    + specialize (IH current).
      destruct (V8.ascendingRun comparefn current l) as [run rest]; simpl in *.
      now rewrite IH.
Qed.

Lemma V8_CountAndMakeRun_Permutation {A} (comparefn : A -> A -> Z) l :
  Permutation
    (fst (V8.CountAndMakeRun comparefn l) ++ snd (V8.CountAndMakeRun comparefn l)) l.
Proof.
  destruct l as [|x [|y l]]; try reflexivity.
  unfold V8.CountAndMakeRun.
  destruct (comparefn y x <? 0).
  - pose proof (V8_descendingRun_app comparefn y l) as E.
    destruct (V8.descendingRun comparefn y l) as [run rest]; cbn [fst snd] in *.
    rewrite <- E.
    change (x :: y :: run ++ rest) with ((x :: y :: run) ++ rest).
    apply Permutation_app_tail.
    symmetry. apply (Permutation_rev (x :: y :: run)).
  - pose proof (V8_ascendingRun_app comparefn y l) as E.
    destruct (V8.ascendingRun comparefn y l) as [run rest]; cbn [fst snd] in *.
    now rewrite <- E.
Qed.

Lemma V8_insertPivot_Permutation {A} (comparefn : A -> A -> Z) sorted pivot :
  Permutation (V8.insertPivot comparefn sorted pivot) (pivot :: sorted).
Proof.
  unfold V8.insertPivot.
  set (place := V8.searchPlace _ _ _ _ _ _).
  rewrite <- (take_drop place sorted) at 3.
  symmetry. apply Permutation_middle.
Qed.

Lemma V8_BinaryInsertionSort_Permutation {A} (comparefn : A -> A -> Z) rest :
  forall run,
    Permutation (V8.BinaryInsertionSort comparefn run rest) (run ++ rest).
Proof.
  unfold V8.BinaryInsertionSort.
  induction rest as [|pivot rest IH]; intros run; simpl.
  - now rewrite app_nil_r.
  - rewrite IH, V8_insertPivot_Permutation.
    apply (Permutation_middle run rest pivot).
Qed.

(** V8's sort rearranges the array and nothing else. *)
Lemma V8_sort_permutes toLowerCase : sort_permutes (V8.host toLowerCase).
Proof.
  intros A comparefn l. simpl. unfold V8.sort.
  pose proof (V8_CountAndMakeRun_Permutation comparefn l) as P.
  destruct (V8.CountAndMakeRun comparefn l) as [run rest]; simpl in P.
  now rewrite V8_BinaryInsertionSort_Permutation.
Qed.

(** A comparison function that puts every element before every other
    one makes the whole array one descending run, which V8 reverses. *)
Lemma V8_descendingRun_all {A} (comparefn : A -> A -> Z) l :
  forall previous,
    (forall a b, In a (previous :: l) -> In b (previous :: l) -> comparefn a b < 0) ->
    V8.descendingRun comparefn previous l = (l, []).
Proof.
  induction l as [|current l IH]; intros previous Hall; simpl; [reflexivity|].
  replace (comparefn current previous <? 0) with true.
  - rewrite IH; [reflexivity|].
    intros a b Ha Hb. apply Hall; now right.
  - symmetry. apply Z.ltb_lt. apply Hall; simpl; auto.
Qed.

Lemma V8_sort_reverses {A} (comparefn : A -> A -> Z) l :
  (forall a b, In a l -> In b l -> comparefn a b < 0) ->
  V8.sort comparefn l = rev l.
Proof.
  intros Hall. destruct l as [|x [|y l]]; try reflexivity.
  unfold V8.sort, V8.CountAndMakeRun.
  replace (comparefn y x <? 0) with true
    by (symmetry; apply Z.ltb_lt; apply Hall; simpl; auto).
  rewrite V8_descendingRun_all; [reflexivity|].
  intros a b Ha Hb. apply Hall; now right.
Qed.

(** ** Filtering and slicing *)

Lemma filter_andb {A} (p q : A -> bool) l :
  List.filter q (List.filter p l) = List.filter (fun a => p a && q a) l.
Proof.
  induction l as [|x l IH]; simpl; [reflexivity|].
  destruct (p x); simpl; [|exact IH].
  destruct (q x); now rewrite IH.
Qed.

Lemma filter_true {A} (l : list A) : List.filter (fun _ => true) l = l.
Proof. induction l as [|x l IH]; simpl; congruence. Qed.

(** A page that starts inside or after the array: [slice] takes
    [size] elements from [start] on, as far as there are any. *)
Lemma Array_slice_page {A} (l : list A) (start size : Z) :
  0 <= start -> 0 <= size ->
  Array_slice l start (start + size) =
  take (Z.to_nat size) (drop (Z.to_nat start) l).
Proof.
  intros Hs Hz. unfold Array_slice.
  destruct (Z.ltb_spec start 0); [lia|].
  destruct (Z.ltb_spec (start + size) 0); [lia|].
  set (len := Z.of_nat (length l)).
  destruct (Z.le_gt_cases len start) as [Hge|Hlt].
  - rewrite Z.min_r by lia.
    rewrite !drop_ge by lia. now rewrite !take_nil.
  - rewrite (Z.min_l start) by lia.
    destruct (Z.le_gt_cases (start + size) len) as [Hin|Hout].
    + rewrite Z.min_l by lia. f_equal. lia.
    + rewrite Z.min_r by lia.
      rewrite !take_ge; [reflexivity | |]; rewrite length_drop; lia.
Qed.

Section Query.
Context `{Host}.

Lemma filterWhen_filter {B} (x : option B) isTruthy p q l :
  AnalysesRoute.filterWhen x isTruthy p (List.filter q l) =
  List.filter (fun a => q a && passWhen x isTruthy p a) l.
Proof.
  unfold AnalysesRoute.filterWhen, passWhen.
  destruct x as [v|]; [destruct (isTruthy v)|].
  - apply filter_andb.
  - apply List.filter_ext. intros a. now rewrite andb_true_r.
  - apply List.filter_ext. intros a. now rewrite andb_true_r.
Qed.

Lemma applyFilters_filter filters l :
  AnalysesRoute.applyFilters filters l = List.filter (passes filters) l.
Proof.
  unfold AnalysesRoute.applyFilters. cbv zeta.
  rewrite <- (filter_true l) at 1.
  rewrite !filterWhen_filter.
  apply List.filter_ext. intros a. reflexivity.
Qed.

Lemma matchesTags_spec ts a :
  AnalysesRoute.matchesTags ts a = true <->
  exists tag own, In tag ts /\ tags (metadata a) = Some own /\ In tag own.
Proof.
  unfold AnalysesRoute.matchesTags. rewrite existsb_exists. split.
  - intros (tag & I & M). destruct (tags (metadata a)) as [own|]; [|discriminate].
    exists tag, own. repeat split; try assumption.
    unfold Array_includes in M. apply existsb_exists in M as (t & It & Et).
    apply String.eqb_eq in Et. now subst.
  - intros (tag & own & I & -> & Io). exists tag. split; [assumption|].
    unfold Array_includes. apply existsb_exists. exists tag.
    split; [assumption | apply String.eqb_refl].
Qed.

End Query.

(** ** The list query *)

Section ListQuery.
Context `{Host}.

Lemma sorted_length {A} (P : sort_permutes H) (comparefn : A -> A -> Z) l :
  length (Array_sort comparefn l) = length l.
Proof. apply Permutation_length, P. Qed.


(** The comparison function never answers 0: of two records with the
    same sort value it reports each as coming before the other. *)
Lemma compareFn_tie filters a b :
  AnalysesRoute.sortValue_lt filters a b = false ->
  AnalysesRoute.sortValue_lt filters b a = false ->
  AnalysesRoute.compareFn filters a b = -1 /\
  AnalysesRoute.compareFn filters b a = -1.
Proof.
  intros Lab Lba. unfold AnalysesRoute.compareFn.
  destruct (sortOrder filters) as [[|]|]; now rewrite Lab, Lba.
Qed.

(** [GET] answers with the list response over what the repository
    returns. *)
Lemma GET_run filters page pageSize w l w' :
  analysisStore.getAllAnalyses w = (Returned l, w') ->
  AnalysesRoute.GET filters page pageSize w =
  (Returned (AnalysesRoute.Ok200 (AnalysesRoute.listResponse filters page pageSize l)), w').
Proof.
  intros G. unfold AnalysesRoute.GET. apply try_catch_run.
  now rewrite (bind_run _ _ _ _ _ G).
Qed.



Example parseTags_examples :
  AnalysesRoute.parseTags None = None /\
  AnalysesRoute.parseTags (Some "") = Some [""] /\
  AnalysesRoute.parseTags (Some "a,b") = Some ["a"; "b"].
Proof. repeat split. Qed.

End ListQuery.

(** The guard [filters.tags.length > 0] skips an empty list of tags.
    No request reaches it with one ([parseTags_never_empty]): only a
    caller that builds the filters itself does. *)
Remark empty_tag_list_is_skipped :
  let response :=
    AnalysesRoute.listResponse (H := asciiHost)
      (with_tags (Some []) defaultFilters) 1 10 [taggedAB; taggedC] in
  analyses response = [taggedAB; taggedC] /\
  total response = 2.
Proof. vm_compute. now split. Qed.




(** A tag is a label of a category, which the empty string is not.  To
    the code it is a tag like any other: a record that carries it is a
    match of [?tags=]. *)
Remark empty_string_is_not_a_label :
  let blank := sampleAnalysis "blank" draft (Some [""]) 1000 1000 in
  analyses
    (AnalysesRoute.listResponse (H := asciiHost)
       (with_tags (AnalysesRoute.parseTags (Some "")) defaultFilters) 1 10
       [taggedAB; blank]) = [blank].
Proof. vm_compute. reflexivity. Qed.

(** C9: in the list query a numeric filter value of 0 (minimum value,
    maximum value, bedrooms, bathrooms) and an empty search string
    leave the answer what it is without that filter; a query that only
    asks for 0 bedrooms gets every record, whatever its bedroom count. *)
Theorem zero_and_empty_filters_are_skipped `{Host}
    (filters : AnalysisFilters) (page pageSize : Z) (l : list SavedAnalysis) :
  AnalysesRoute.listResponse (with_minValue (Some 0) filters) page pageSize l =
  AnalysesRoute.listResponse (with_minValue None filters) page pageSize l /\
  AnalysesRoute.listResponse (with_maxValue (Some 0) filters) page pageSize l =
  AnalysesRoute.listResponse (with_maxValue None filters) page pageSize l /\
  AnalysesRoute.listResponse (with_bedrooms (Some 0) filters) page pageSize l =
  AnalysesRoute.listResponse (with_bedrooms None filters) page pageSize l /\
  AnalysesRoute.listResponse (with_bathrooms (Some 0) filters) page pageSize l =
  AnalysesRoute.listResponse (with_bathrooms None filters) page pageSize l /\
  AnalysesRoute.listResponse (with_search (Some "") filters) page pageSize l =
  AnalysesRoute.listResponse (with_search None filters) page pageSize l /\
  AnalysesRoute.applyFilters (with_bedrooms (Some 0) defaultFilters) l = l.
Proof. repeat split; reflexivity. Qed.

(** C6: for [page >= 1] and a page size (a count, so not negative) the
    list query returns the elements of the sorted matches from index
    [(page-1)*pageSize] up to, not including, [page*pageSize]; [total]
    is the number of matches before pagination; [hasMore] holds exactly
    when [page*pageSize < total]; a page that starts at or after the end
    of the matches is empty with [hasMore = false]; and with 12 matches
    and a page size of 5, page 1 has 5 records and more to come, page 3
    has 2 records and no more. *)
Theorem pagination `{Host} (filters : AnalysisFilters) (page pageSize : Z)
    (l : list SavedAnalysis) :
  sort_permutes H ->
  1 <= page ->
  0 <= pageSize ->
  let matching := AnalysesRoute.applyFilters filters l in
  let sorted := Array_sort (AnalysesRoute.compareFn filters) matching in
  let response := AnalysesRoute.listResponse filters page pageSize l in
  analyses response =
    take (Z.to_nat pageSize) (drop (Z.to_nat ((page - 1) * pageSize)) sorted) /\
  (forall k : nat,
     analyses response !! k =
     if bool_decide (Z.of_nat k < pageSize)
     then sorted !! (Z.to_nat ((page - 1) * pageSize) + k)%nat
     else None) /\
  total response = Z.of_nat (length matching) /\
  hasMore response = bool_decide (page * pageSize < total response) /\
  (total response <= (page - 1) * pageSize ->
   analyses response = [] /\ hasMore response = false) /\
  (length matching = 12%nat -> pageSize = 5 ->
   (page = 1 -> length (analyses response) = 5%nat /\ hasMore response = true) /\
   (page = 3 -> length (analyses response) = 2%nat /\ hasMore response = false)).
Proof.
  intros P Hpage Hsize matching sorted response.
  assert (Hstart : 0 <= (page - 1) * pageSize) by nia.
  assert (Hlen : length sorted = length matching) by apply (sorted_length P).
  assert (Hslice : analyses response =
            take (Z.to_nat pageSize) (drop (Z.to_nat ((page - 1) * pageSize)) sorted)).
  { unfold response, AnalysesRoute.listResponse. cbn [analyses].
    now apply Array_slice_page. }
  assert (Htotal : total response = Z.of_nat (length matching)).
  { unfold response, AnalysesRoute.listResponse. cbn [total]. fold matching sorted.
    now rewrite Hlen. }
  assert (Hmore : hasMore response = bool_decide (page * pageSize < total response)).
  { rewrite Htotal.
    unfold response, AnalysesRoute.listResponse. cbn [hasMore]. fold matching sorted.
    rewrite Hlen.
    replace ((page - 1) * pageSize + pageSize) with (page * pageSize) by lia.
    destruct (Z.ltb_spec (page * pageSize) (Z.of_nat (length matching)));
      [now rewrite bool_decide_eq_true_2 | rewrite bool_decide_eq_false_2; [reflexivity | lia]]. }
  split; [exact Hslice|]. split; [|split; [exact Htotal|split; [exact Hmore|split]]].
  - intros k. rewrite Hslice.
    destruct (decide (Z.of_nat k < pageSize)) as [Hk|Hk].
    + rewrite bool_decide_eq_true_2 by exact Hk.
      rewrite lookup_take_lt by lia. now rewrite lookup_drop.
    + rewrite bool_decide_eq_false_2 by exact Hk.
      apply lookup_take_ge. lia.
  - intros Hbeyond. rewrite Htotal in Hbeyond. split.
    + rewrite Hslice, drop_ge by lia. apply take_nil.
    + rewrite Hmore, Htotal. apply bool_decide_eq_false_2. nia.
  - intros H12 H5. split; intros Hp.
    + split.
      * rewrite Hslice, length_take, length_drop, Hlen, H12, H5, Hp. reflexivity.
      * rewrite Hmore, Htotal, H12, H5, Hp. reflexivity.
    + split.
      * rewrite Hslice, length_take, length_drop, Hlen, H12, H5, Hp. reflexivity.
      * rewrite Hmore, Htotal, H12, H5, Hp. reflexivity.
Qed.

(** The hypothesis on the page size is needed: the route does not
    check it, and [slice] counts a negative bound from the end. *)
Lemma negative_page_size_is_not_a_count :
  let response :=
    AnalysesRoute.listResponse (H := asciiHost) defaultFilters 1 (-1)
      [taggedAB; taggedC; untagged] in
  analyses response = [taggedAB; taggedC] /\ hasMore response = true.
Proof. vm_compute. split; reflexivity. Qed.

Lemma pagination_witness :
  let response :=
    AnalysesRoute.listResponse (H := asciiHost) defaultFilters 3 5 twelve in
  length (analyses response) = 2%nat /\ hasMore response = false.
Proof.
  refine (proj2 (proj2 (proj2 (proj2 (proj2 (proj2
    (pagination (H := asciiHost) defaultFilters 3 5 twelve
       (V8_sort_permutes _) _ _))))) _ _) _).
  - lia.
  - lia.
  - reflexivity.
  - reflexivity.
  - reflexivity.
Defined.

(** Under V8 the default listing of any records that share their
    [updated_at] is the stored order reversed. *)
Lemma tied_records_are_reversed (toLowerCase : string -> string)
    (l : list SavedAnalysis) (t : Z) :
  (forall a, In a l -> updated_at (metadata a) = t) ->
  Z.of_nat (length l) <= 10 ->
  analyses (AnalysesRoute.listResponse (H := V8.host toLowerCase)
              defaultFilters 1 10 l) = rev l.
Proof.
  intros Htied Hlen. unfold AnalysesRoute.listResponse. cbn [analyses].
  change (AnalysesRoute.applyFilters defaultFilters l) with l.
  change (@Array_sort (V8.host toLowerCase)) with (@V8.sort).
  rewrite V8_sort_reverses.
  - rewrite Array_slice_page by lia.
    rewrite drop_0. apply take_ge. rewrite length_rev. lia.
  - intros a b Ha Hb. unfold AnalysesRoute.compareFn, AnalysesRoute.sortValue_lt. cbn.
    rewrite (Htied a Ha), (Htied b Hb), Z.ltb_irrefl. lia.
Qed.

(** C7: two records with the same [updated_at], listed with the default
    sort (descending [updated_at]): the comparison function reports
    each as coming before the other, and V8's sort returns them in the
    reverse of their stored order. *)
Theorem tied_records_change_places :
  updated_at (metadata firstTied) = updated_at (metadata secondTied) /\
  AnalysesRoute.compareFn defaultFilters firstTied secondTied = -1 /\
  AnalysesRoute.compareFn defaultFilters secondTied firstTied = -1 /\
  analyses
    (AnalysesRoute.listResponse (H := asciiHost) defaultFilters 1 10
       [firstTied; secondTied]) = [secondTied; firstTied].
Proof. vm_compute. repeat split. Qed.

(** ** The persistence adapter *)

Lemma findIndex_find_None {A} (p : A -> bool) l :
  List.find p l = None -> findIndex p l = None.
Proof.
  induction l as [|x l IH]; simpl; [reflexivity|].
  destruct (p x); [discriminate|]. intros F. now rewrite (IH F).
Qed.

Lemma findIndex_find_Some {A} (p : A -> bool) l a :
  List.find p l = Some a -> exists k, findIndex p l = Some k.
Proof.
  intros F. destruct (findIndex p l) as [k|] eqn:E; [now exists k|].
  apply findIndex_None in E. congruence.
Qed.

Lemma same_id_spec i a : same_id i a = true <-> id a = i.
Proof. apply String.eqb_eq. Qed.

Lemma same_id_stamped t a : same_id (id a) (with_metadata (with_updated_at t (metadata a)) a) = true.
Proof. apply String.eqb_refl. Qed.

(** After the upsert the id finds the record: restamped if the id was
    there before, as given if it was not. *)
Lemma find_upsert t a l :
  List.find (same_id (id a)) (upsert t a l) =
  Some
    match List.find (same_id (id a)) l with
    | Some _ => with_metadata (with_updated_at t (metadata a)) a
    | None => a
    end.
Proof.
  unfold upsert.
  destruct (List.find (same_id (id a)) l) as [old|] eqn:F.
  - destruct (findIndex_find_Some _ _ _ F) as (k & Fk). rewrite Fk.
    apply find_insert_findIndex; [exact Fk | apply same_id_stamped].
  - rewrite (findIndex_find_None _ _ F), find_app_None by exact F.
    simpl. unfold same_id. now rewrite String.eqb_refl.
Qed.

(** C8: while the store is unavailable the reads [getAll], [getById]
    and [getDashboardData] return the empty collection, no record and
    the empty summary, the writes [save], [delete], [updateStatus] and
    [clearAll] return [false]; each of them returns (none throws) and
    leaves the world as it was. *)
Theorem unavailable_store_degrades `{Host} (w : World) (i : string)
    (a : SavedAnalysis) (s : Status) :
  storage_available w = false ->
  AnalysisStorage.getAll w = (Returned [], w) /\
  AnalysisStorage.getById i w = (Returned None, w) /\
  AnalysisStorage.getDashboardData w = (Returned emptyDashboard, w) /\
  AnalysisStorage.save a w = (Returned false, w) /\
  AnalysisStorage.delete i w = (Returned false, w) /\
  AnalysisStorage.updateStatus i s w = (Returned false, w) /\
  AnalysisStorage.clearAll w = (Returned false, w).
Proof.
  intros E.
  assert (S : storedAnalyses w = []) by (unfold storedAnalyses; now rewrite E).
  repeat split.
  - now rewrite getAll_run, S.
  - now rewrite getById_run, S.
  - destruct (getDashboardData_run w) as (d & w' & Ed & _ & U).
    destruct (U E) as [-> ->]. exact Ed.
  - now apply save_unavailable.
  - now apply delete_unavailable.
  - apply updateStatus_missing. now rewrite S.
  - now apply clearAll_unavailable.
Qed.

Lemma unavailable_store_degrades_witness :
  AnalysisStorage.getAll (server 0) = (Returned [], server 0) /\
  AnalysisStorage.save (H := asciiHost) taggedAB (server 0) = (Returned false, server 0).
Proof.
  pose proof (unavailable_store_degrades (H := asciiHost) (server 0) "ab" taggedAB
                published eq_refl) as D.
  split; [apply D | apply (proj1 (proj2 (proj2 (proj2 D))))].
Defined.

(** C10: with the store available, [delete] of an id no stored record
    has returns [true]: it writes the collection back as it read it,
    recomputes the dashboard summary from it, and the repository's
    [deleteAnalysis] reports success as well. *)
Theorem delete_of_unknown_id_succeeds `{Host} (w : World) (i : string) :
  storage_available w = true ->
  (forall a, In a (storedAnalyses w) -> id a <> i) ->
  exists w',
    AnalysisStorage.delete i w = (Returned true, w') /\
    storedAnalyses w' = storedAnalyses w /\
    rental_analyses (localStorage w') = Some (Json (storedAnalyses w)) /\
    dashboard_data (localStorage w') =
      Some (Json (dashboardStats (storedAnalyses w))) /\
    fst (analysisStore.deleteAnalysis i w) = Returned true.
Proof.
  intros E Hnone.
  assert (F : List.filter (fun a => negb (same_id i a)) (storedAnalyses w) =
              storedAnalyses w).
  { apply filter_all_true, Forall_forall. intros a Ha.
    apply negb_true_iff. destruct (same_id i a) eqn:Sa; [|reflexivity].
    apply same_id_spec in Sa. apply list_elem_of_In in Ha. now apply Hnone in Ha. }
  eexists. split; [apply (delete_run i w E)|]. cbv zeta. rewrite F.
  repeat split.
  - unfold storedAnalyses at 1. cbn. now rewrite E.
  - destruct (deleteAnalysis_run i w E) as (w' & -> & _). reflexivity.
Qed.

Lemma delete_of_unknown_id_succeeds_witness :
  fst (AnalysisStorage.delete (H := asciiHost) "missing" (browser [taggedAB; taggedC] 0)) =
  Returned true.
Proof.
  destruct (delete_of_unknown_id_succeeds (H := asciiHost)
              (browser [taggedAB; taggedC] 0) "missing" eq_refl) as (w' & -> & _).
  - intros a [<-|[<-|[]]]; discriminate.
  - reflexivity.
Defined.

(** C2, as stated, fails: a record with a new id is stored as the
    caller gave it, so [getById] after [save] returns it with its own
    [updated_at], here one that lies before the time of the save. *)
Lemma save_of_new_record_keeps_updated_at :
  let w := browser [] 5000 in
  let saved := AnalysisStorage.save (H := asciiHost) staleRecord w in
  fst saved = Returned true /\
  fst (AnalysisStorage.getById (id staleRecord) (snd saved)) =
    Returned (Some staleRecord) /\
  updated_at (metadata staleRecord) = 200 /\
  clock w = 5000 /\
  ~ clock w <= updated_at (metadata staleRecord).
Proof.
  cbv zeta.
  split; [vm_compute; reflexivity|].
  split; [vm_compute; reflexivity|].
  split; [reflexivity|]. split; [reflexivity|].
  cbn. lia.
Qed.

(** C2, amended: with the store available, [save] succeeds and
    [getById] of the record's id then returns the record: with
    [updated_at] set to the time of the save when a record of that id
    was stored before, and exactly as it was given when the id is new. *)
Theorem save_then_getById `{Host} (w : World) (a : SavedAnalysis) :
  storage_available w = true ->
  exists w',
    AnalysisStorage.save a w = (Returned true, w') /\
    AnalysisStorage.getById (id a) w' =
      (Returned
         (Some
            match List.find (same_id (id a)) (storedAnalyses w) with
            | Some _ => with_metadata (with_updated_at (clock w) (metadata a)) a
            | None => a
            end),
       w').
Proof.
  intros E. eexists. split; [apply (save_run a w E)|]. cbv zeta.
  rewrite getById_run.
  rewrite (keeps_storedAnalyses _ _ (keeps_analyses_with_dashboard _ _)).
  rewrite storedAnalyses_with_analyses by exact E.
  now rewrite find_upsert.
Qed.

Lemma save_then_getById_witness :
  exists w',
    AnalysisStorage.save (H := asciiHost) taggedC (browser [taggedAB; taggedC] 9000) =
      (Returned true, w') /\
    AnalysisStorage.getById (id taggedC) w' =
      (Returned (Some (with_metadata (with_updated_at 9000 (metadata taggedC)) taggedC)),
       w').
Proof.
  exact (save_then_getById (H := asciiHost) (browser [taggedAB; taggedC] 9000)
           taggedC eq_refl).
Defined.

(** C3, as stated, fails: an id in the partial input becomes the id of
    the updated record, which is stored next to the untouched original,
    and a [created_at] in the partial input replaces the stored one. *)
Lemma update_takes_over_id_and_created_at :
  let w := browser [storedRecord] 9000 in
  let renamed := analysisStore.updateAnalysis (H := asciiHost) "a1" renamingUpdate w in
  let redated := analysisStore.updateAnalysis (H := asciiHost) "a1" redatingUpdate w in
  (exists r, fst renamed = Returned (Some r) /\ id r = "other" /\
     fst (AnalysisStorage.getById "other" (snd renamed)) = Returned (Some r) /\
     fst (AnalysisStorage.getById "a1" (snd renamed)) = Returned (Some storedRecord)) /\
  (exists r, fst redated = Returned (Some r) /\
     fst (AnalysisStorage.getById "a1" (snd redated)) = Returned (Some r) /\
     created_at (metadata storedRecord) = 1000 /\
     created_at (metadata r) = 7777).
Proof.
  split; eexists; vm_compute; repeat split.
Qed.

(** C3, amended: for a stored record and a partial update, on an
    available store, the update succeeds; the updated record has the
    id and the [created_at] of the partial input where it carries
    them and those of the stored record where it does not; its
    [updated_at] is the time of the update whatever [updated_at] the
    partial input holds; and it is stored under its id.  So an input
    without an id and a creation time of its own leaves both as they
    were. *)
Theorem update_keeps_id_and_created_at `{Host} (w : World) (i : string)
    (existing : SavedAnalysis) (updates : PartialSavedAnalysis) :
  storage_available w = true ->
  List.find (same_id i) (storedAnalyses w) = Some existing ->
  exists r w',
    analysisStore.updateAnalysis i updates w = (Returned (Some r), w') /\
    id r = default (id existing) (p_id updates) /\
    created_at (metadata r) =
      match p_metadata updates with
      | Some m => created_at m
      | None => created_at (metadata existing)
      end /\
    updated_at (metadata r) = clock w /\
    AnalysisStorage.getById (id r) w' = (Returned (Some r), w') /\
    ((forall j, p_id updates = Some j -> j = id existing) ->
     (forall m, p_metadata updates = Some m ->
                created_at m = created_at (metadata existing)) ->
     id r = i /\
     id r = id existing /\
     created_at (metadata r) = created_at (metadata existing) /\
     AnalysisStorage.getById i w' = (Returned (Some r), w')).
Proof.
  intros E F.
  pose proof (find_some _ _ F) as [_ Si]. apply same_id_spec in Si.
  set (r := analysisStore.mergeUpdates (clock w) existing updates).
  assert (Cr : created_at (metadata r) =
               match p_metadata updates with
               | Some m => created_at m
               | None => created_at (metadata existing)
               end).
  { unfold r, analysisStore.mergeUpdates. cbn. now destruct (p_metadata updates). }
  assert (Hr : with_metadata (with_updated_at (clock w) (metadata r)) r = r)
    by reflexivity.
  assert (G : forall w', storedAnalyses w' = upsert (clock w) r (storedAnalyses w) ->
              AnalysisStorage.getById (id r) w' = (Returned (Some r), w')).
  { intros w' S. rewrite getById_run, S, find_upsert, Hr.
    destruct (List.find (same_id (id r)) (storedAnalyses w)); reflexivity. }
  exists r. eexists. split; [apply (updateAnalysis_run i updates existing w E F)|].
  fold r. split; [reflexivity|]. split; [exact Cr|]. split; [reflexivity|].
  assert (S : storedAnalyses
                (set_cache
                   {| entries := <[i := (r, clock w)]> (entries (cache w)); lists := ∅ |}
                   (let l := upsert (clock w) r (storedAnalyses w) in
                    with_dashboard (dashboardStats l) (with_analyses l w))) =
              upsert (clock w) r (storedAnalyses w)).
  { unfold storedAnalyses at 1. cbn. now rewrite E. }
  split; [now apply G|].
  intros Hid Hcreated.
  assert (Ir : id r = id existing).
  { change (id r) with (default (id existing) (p_id updates)).
    destruct (p_id updates) as [j|]; cbn; [now apply Hid | reflexivity]. }
  split; [congruence|]. split; [exact Ir|]. split.
  - rewrite Cr. destruct (p_metadata updates) as [m|]; [now apply Hcreated | reflexivity].
  - rewrite <- Si, <- Ir. now apply G.
Qed.

Lemma update_keeps_id_and_created_at_witness :
  exists r w',
    analysisStore.updateAnalysis (H := asciiHost) "a1" retitlingUpdate
      (browser [storedRecord] 9000) = (Returned (Some r), w') /\
    id r = "a1" /\
    created_at (metadata r) = created_at (metadata storedRecord) /\
    updated_at (metadata r) = 9000 /\
    AnalysisStorage.getById "a1" w' = (Returned (Some r), w').
Proof.
  destruct (update_keeps_id_and_created_at (H := asciiHost) (browser [storedRecord] 9000)
              "a1" storedRecord retitlingUpdate eq_refl eq_refl)
    as (r & w' & U & _ & _ & T & _ & K).
  destruct K as (I & _ & C & G).
  - discriminate.
  - now intros m [= <-].
  - exists r, w'. repeat split; assumption.
Defined.

(** ** Deleting through the route *)

Section Delete.
Context `{Host}.

(** A cache-first lookup changes nothing but the cache, and what it
    found it finds again at the same instant. *)
Lemma getAnalysisById_found i w a w1 :
  analysisStore.getAnalysisById i w = (Returned (Some a), w1) ->
  storage_available w1 = storage_available w /\
  localStorage w1 = localStorage w /\
  clock w1 = clock w /\
  fst (analysisStore.getAnalysisById i w1) = Returned (Some a).
Proof.
  unfold analysisStore.getAnalysisById.
  unfold bind at 1, analysisCache.get.
  destruct (entries (cache w) !! i ≫= analysisCache.fresh (clock w)) as [c|] eqn:C.
  - intros [= -> <-]. repeat split; try reflexivity.
    unfold bind, analysisCache.get. now rewrite C.
  - rewrite (bind_run _ _ _ _ _ (getById_run i w)).
    destruct (List.find (same_id i) (storedAnalyses w)) as [b|]; [|discriminate].
    unfold bind, analysisCache.set, ret. intros [= -> <-].
    repeat split; try reflexivity.
    cbn. rewrite lookup_insert_eq. cbn. unfold analysisCache.fresh. cbn.
    replace (clock w <? clock w + analysisCache.TTL) with true; [reflexivity|].
    symmetry. apply Z.ltb_lt. unfold analysisCache.TTL. lia.
Qed.


End Delete.



(** The guard is the route's: the repository function deletes a
    published record like any other. *)
Lemma deleteAnalysis_has_no_guard :
  let w := browser [taggedAB; publishedRecord] 0 in
  let deleted := analysisStore.deleteAnalysis (H := asciiHost) "pub" w in
  fst deleted = Returned true /\
  storedAnalyses (snd deleted) = [taggedAB].
Proof. split; vm_compute; reflexivity. Qed.


(** ** Cache coherence *)

(** C5: after a successful [saveAnalysis], [updateAnalysis],
    [deleteAnalysis] or [updateAnalysisStatus] no list is cached any
    more, the cache entry of the id is the new record (save, update) or
    gone (delete, status change), and a list query at any later time
    reads the stored collection, which holds the saved record, lacks
    the deleted one, or holds the record with its new status, whatever
    list was cached before. *)
Theorem mutations_drop_cached_lists `{Host} (w : World) :
  (forall a r w',
     analysisStore.saveAnalysis a w = (Returned r, w') ->
     lists (cache w') = ∅ /\
     entries (cache w') !! id a = Some (a, clock w) /\
     storedAnalyses w' = upsert (clock w) a (storedAnalyses w) /\
     forall t,
       fst (analysisStore.getAllAnalyses (set_clock t w')) =
       Returned (storedAnalyses w')) /\
  (forall i updates r w',
     analysisStore.updateAnalysis i updates w = (Returned (Some r), w') ->
     lists (cache w') = ∅ /\
     entries (cache w') !! i = Some (r, clock w) /\
     storedAnalyses w' = upsert (clock w) r (storedAnalyses w) /\
     forall t,
       fst (analysisStore.getAllAnalyses (set_clock t w')) =
       Returned (storedAnalyses w')) /\
  (forall i w',
     analysisStore.deleteAnalysis i w = (Returned true, w') ->
     lists (cache w') = ∅ /\
     entries (cache w') !! i = None /\
     storedAnalyses w' =
       List.filter (fun a => negb (same_id i a)) (storedAnalyses w) /\
     forall t,
       fst (analysisStore.getAllAnalyses (set_clock t w')) =
       Returned (storedAnalyses w')) /\
  (forall i s w',
     analysisStore.updateAnalysisStatus i s w = (Returned true, w') ->
     lists (cache w') = ∅ /\
     entries (cache w') !! i = None /\
     (exists k a,
        storedAnalyses w !! k = Some a /\ id a = i /\
        storedAnalyses w' = <[k := restamp (clock w) s a]> (storedAnalyses w)) /\
     forall t,
       fst (analysisStore.getAllAnalyses (set_clock t w')) =
       Returned (storedAnalyses w')).
Proof.
  assert (Fresh : forall w', lists (cache w') = ∅ -> forall t,
            fst (analysisStore.getAllAnalyses (set_clock t w')) =
            Returned (storedAnalyses w')).
  { intros w' L t. rewrite getAllAnalyses_miss; [reflexivity|].
    cbn. rewrite L. apply lookup_empty. }
  split; [|split; [|split]].
  - intros a r w' S.
    destruct (storage_available w) eqn:E.
    2:{ rewrite (saveAnalysis_unavailable a w E) in S. discriminate. }
    destruct (saveAnalysis_run a w E) as (w2 & S2 & _ & Ls & Lc & _).
    rewrite S2 in S. injection S as <- <-.
    assert (L : lists (cache w2) = ∅) by now rewrite Lc.
    split; [exact L|]. split; [|split; [exact Ls | now apply Fresh]].
    rewrite Lc. cbn. apply lookup_insert_eq.
  - intros i updates r w' U.
    destruct (List.find (same_id i) (storedAnalyses w)) as [existing|] eqn:F.
    2:{ unfold analysisStore.updateAnalysis in U.
        rewrite (bind_run _ _ _ _ _ (getById_run i w)), F in U. discriminate. }
    destruct (storage_available w) eqn:E.
    2:{ unfold storedAnalyses in F. rewrite E in F. discriminate. }
    rewrite (updateAnalysis_run i updates existing w E F) in U.
    cbv zeta in U. injection U as <- <-.
    assert (L : lists (cache (set_cache
                {| entries := <[i := (analysisStore.mergeUpdates (clock w) existing updates,
                                      clock w)]> (entries (cache w));
                   lists := ∅ |}
                (with_dashboard
                   (dashboardStats
                      (upsert (clock w)
                         (analysisStore.mergeUpdates (clock w) existing updates)
                         (storedAnalyses w)))
                   (with_analyses
                      (upsert (clock w)
                         (analysisStore.mergeUpdates (clock w) existing updates)
                         (storedAnalyses w)) w)))) = ∅) by reflexivity.
    split; [exact L|]. split; [|split; [|now apply Fresh]].
    + cbn. apply lookup_insert_eq.
    + unfold storedAnalyses at 1. cbn. now rewrite E.
  - intros i w' D.
    destruct (storage_available w) eqn:E.
    2:{ rewrite (deleteAnalysis_unavailable i w E) in D. discriminate. }
    destruct (deleteAnalysis_run i w E) as (w2 & D2 & _ & Ls & Lc & _).
    rewrite D2 in D. injection D as <-.
    assert (L : lists (cache w2) = ∅) by now rewrite Lc.
    split; [exact L|]. split; [|split; [exact Ls | now apply Fresh]].
    rewrite Lc. cbn. apply lookup_delete_eq.
  - intros i s w' U.
    destruct (findIndex (same_id i) (storedAnalyses w)) as [k|] eqn:F.
    2:{ rewrite (updateAnalysisStatus_missing i s w F) in U. discriminate. }
    destruct (findIndex_Some _ _ _ F) as (a & La & Sa & _).
    destruct (updateAnalysisStatus_found i s w k a F La) as (w2 & U2 & _ & Ls & Lc & _).
    rewrite U2 in U. injection U as <-.
    assert (L : lists (cache w2) = ∅) by now rewrite Lc.
    split; [exact L|]. split; [|split; [|now apply Fresh]].
    + rewrite Lc. cbn. apply lookup_delete_eq.
    + exists k, a. split; [exact La|]. split; [now apply same_id_spec | exact Ls].
Qed.

Lemma mutations_drop_cached_lists_witness :
  let w := browserWithCachedList [taggedAB] 1000 in
  fst (analysisStore.getAllAnalyses w) = Returned [taggedAB] /\
  forall t,
    fst (analysisStore.getAllAnalyses
           (set_clock t (snd (analysisStore.saveAnalysis (H := asciiHost) taggedC w)))) =
    Returned [taggedAB; taggedC].
Proof.
  intros w. split; [reflexivity|].
  assert (S : analysisStore.saveAnalysis (H := asciiHost) taggedC w =
              (Returned taggedC, snd (analysisStore.saveAnalysis (H := asciiHost) taggedC w)))
    by (vm_compute; reflexivity).
  destruct (proj1 (mutations_drop_cached_lists (H := asciiHost) w) _ _ _ S)
    as (_ & _ & Ls & Fresh).
  intros t. rewrite (Fresh t), Ls. reflexivity.
Defined.

(** * Further properties of the code *)

(** ** The stored collection under [save], [delete] and [updateStatus] *)

Lemma filter_insert_rejected {A} (p : A -> bool) l k old new :
  l !! k = Some old -> p old = false -> p new = false ->
  List.filter p (<[k := new]> l) = List.filter p l.
Proof.
  intros L Po Pn.
  rewrite insert_take_drop by (now apply lookup_lt_Some in L).
  rewrite <- (take_drop_middle l k old L) at 3.
  rewrite !List.filter_app. simpl. now rewrite Po, Pn.
Qed.

Lemma map_id_insert_same l k (old new : SavedAnalysis) :
  l !! k = Some old -> id new = id old ->
  map id (<[k := new]> l) = map id l.
Proof.
  intros L E.
  change (map id (<[k := new]> l)) with (id <$> <[k := new]> l).
  rewrite list_fmap_insert. apply list_insert_id.
  rewrite list_lookup_fmap, L. simpl. now rewrite E.
Qed.

Lemma upsert_ids t a l :
  map id (upsert t a l) =
  match List.find (same_id (id a)) l with
  | Some _ => map id l
  | None => map id l ++ [id a]
  end.
Proof.
  unfold upsert. destruct (List.find (same_id (id a)) l) as [old|] eqn:F.
  - destruct (findIndex_find_Some _ _ _ F) as (k & Fk). rewrite Fk.
    destruct (findIndex_Some _ _ _ Fk) as (b & Lb & Sb & _).
    apply same_id_spec in Sb. now apply (map_id_insert_same l k b).
  - rewrite (findIndex_find_None _ _ F). now rewrite map_app.
Qed.

Lemma upsert_others t a l :
  List.filter (fun b => negb (same_id (id a) b)) (upsert t a l) =
  List.filter (fun b => negb (same_id (id a) b)) l.
Proof.
  unfold upsert. destruct (findIndex (same_id (id a)) l) as [k|] eqn:Fk.
  - destruct (findIndex_Some _ _ _ Fk) as (b & Lb & Sb & _).
    apply (filter_insert_rejected _ l k b); [exact Lb | now rewrite Sb |].
    now rewrite same_id_stamped.
  - rewrite List.filter_app. simpl. unfold same_id at 2.
    rewrite String.eqb_refl. simpl. apply app_nil_r.
Qed.

Lemma find_None_not_In i l :
  List.find (same_id i) l = None <-> ~ In i (map id l).
Proof.
  induction l as [|b l IH]; simpl; [tauto|].
  destruct (same_id i b) eqn:S.
  - apply same_id_spec in S. split; [discriminate | intros N; exfalso; auto].
  - rewrite IH. assert (id b <> i) by (intros E; apply same_id_spec in E; congruence).
    tauto.
Qed.

(** X1: [save] on an available store keeps the ids of the collection
    distinct if they were; the collection keeps its length when the id
    was stored and grows by the one record when it was not; and the
    records of every other id stay as they were, in their order. *)
Theorem save_keeps_ids_distinct `{Host} (w : World) (a : SavedAnalysis) :
  storage_available w = true ->
  NoDup (map id (storedAnalyses w)) ->
  exists w',
    AnalysisStorage.save a w = (Returned true, w') /\
    NoDup (map id (storedAnalyses w')) /\
    length (storedAnalyses w') =
      match List.find (same_id (id a)) (storedAnalyses w) with
      | Some _ => length (storedAnalyses w)
      | None => S (length (storedAnalyses w))
      end /\
    List.filter (fun b => negb (same_id (id a) b)) (storedAnalyses w') =
    List.filter (fun b => negb (same_id (id a) b)) (storedAnalyses w).
Proof.
  intros E N. eexists. split; [apply (save_run a w E)|]. cbv zeta.
  rewrite (keeps_storedAnalyses _ _ (keeps_analyses_with_dashboard _ _)).
  rewrite storedAnalyses_with_analyses by exact E.
  split; [|split; [|apply upsert_others]].
  - rewrite upsert_ids.
    destruct (List.find (same_id (id a)) (storedAnalyses w)) eqn:F; [exact N|].
    apply NoDup_app. split; [exact N|]. split; [|apply NoDup_singleton].
    intros x Hx Hx'. apply list_elem_of_In in Hx. apply list_elem_of_In in Hx'.
    destruct Hx' as [<-|[]]. now apply find_None_not_In in F.
  - rewrite <- (length_map id (upsert _ _ _)), upsert_ids.
    destruct (List.find (same_id (id a)) (storedAnalyses w));
      rewrite ?length_app, length_map; simpl; lia.
Qed.

Lemma save_keeps_ids_distinct_witness :
  exists w',
    AnalysisStorage.save (H := asciiHost) staleRecord (browser [taggedAB; taggedC] 0) =
      (Returned true, w') /\
    NoDup (map id (storedAnalyses w')) /\
    length (storedAnalyses w') = 3%nat.
Proof.
  destruct (save_keeps_ids_distinct (H := asciiHost) (browser [taggedAB; taggedC] 0)
              staleRecord eq_refl) as (w' & S & N & L & _).
  - cbn. repeat constructor; rewrite ?list_elem_of_In; simpl; intuition discriminate.
  - exists w'. repeat split; assumption.
Defined.

(** X2: on an available store that holds no record of the id, [save]
    of a record followed by [delete] of its id gives back the
    collection as it was, and the id is not found any more. *)
Theorem save_then_delete_restores `{Host} (w : World) (a : SavedAnalysis) :
  storage_available w = true ->
  (forall b, In b (storedAnalyses w) -> id b <> id a) ->
  exists w1 w2,
    AnalysisStorage.save a w = (Returned true, w1) /\
    AnalysisStorage.delete (id a) w1 = (Returned true, w2) /\
    storedAnalyses w2 = storedAnalyses w /\
    AnalysisStorage.getById (id a) w2 = (Returned None, w2).
Proof.
  intros E Hnew.
  assert (F : List.find (same_id (id a)) (storedAnalyses w) = None).
  { apply find_None_not_In. intros I. apply in_map_iff in I as (b & Eb & Ib).
    now apply Hnew in Ib. }
  assert (All : List.filter (fun b => negb (same_id (id a) b)) (storedAnalyses w) =
                storedAnalyses w).
  { apply filter_all_true, Forall_forall. intros b Hb. apply list_elem_of_In in Hb.
    apply negb_true_iff. destruct (same_id (id a) b) eqn:S; [|reflexivity].
    apply same_id_spec in S. now apply Hnew in Hb. }
  pose proof (save_run a w E) as S. cbv zeta in S.
  set (w1 := with_dashboard _ _) in S.
  assert (E1 : storage_available w1 = true) by exact E.
  assert (S1 : storedAnalyses w1 = upsert (clock w) a (storedAnalyses w)).
  { unfold w1. rewrite (keeps_storedAnalyses _ _ (keeps_analyses_with_dashboard _ _)).
    now apply storedAnalyses_with_analyses. }
  pose proof (delete_run (id a) w1 E1) as D. cbv zeta in D.
  set (w2 := with_dashboard _ _) in D.
  assert (S2 : storedAnalyses w2 = storedAnalyses w).
  { unfold w2. rewrite (keeps_storedAnalyses _ _ (keeps_analyses_with_dashboard _ _)).
    rewrite storedAnalyses_with_analyses by exact E1.
    now rewrite S1, upsert_others. }
  exists w1, w2. split; [exact S|]. split; [exact D|].
  split; [exact S2|]. now rewrite getById_run, S2, F.
Qed.

Lemma save_then_delete_restores_witness :
  exists w1 w2,
    AnalysisStorage.save (H := asciiHost) staleRecord (browser [taggedAB] 0) =
      (Returned true, w1) /\
    AnalysisStorage.delete (H := asciiHost) (id staleRecord) w1 = (Returned true, w2) /\
    storedAnalyses w2 = [taggedAB].
Proof.
  destruct (save_then_delete_restores (H := asciiHost) (browser [taggedAB] 0)
              staleRecord eq_refl) as (w1 & w2 & S & D & R & _).
  - intros b [<-|[]]. discriminate.
  - exists w1, w2. repeat split; assumption.
Defined.

(** X3: [updateStatus] of an id that is stored returns [true]; the first
    record of that id gets the new status and the time of the call as
    [updated_at] and keeps every other field; the ids of the collection
    and the records of other ids stay as they were. *)
Theorem updateStatus_changes_one_record `{Host} (w : World) (i : string)
    (s : Status) (a : SavedAnalysis) :
  List.find (same_id i) (storedAnalyses w) = Some a ->
  exists w' a',
    AnalysisStorage.updateStatus i s w = (Returned true, w') /\
    AnalysisStorage.getById i w' = (Returned (Some a'), w') /\
    status (metadata a') = s /\
    updated_at (metadata a') = clock w /\
    (id a' = id a /\ title a' = title a /\ property a' = property a /\
     analysis a' = analysis a /\ calculations a' = calculations a /\
     created_at (metadata a') = created_at (metadata a) /\
     broker_email (metadata a') = broker_email (metadata a) /\
     tags (metadata a') = tags (metadata a) /\
     notes (metadata a') = notes (metadata a)) /\
    map id (storedAnalyses w') = map id (storedAnalyses w) /\
    List.filter (fun b => negb (same_id i b)) (storedAnalyses w') =
    List.filter (fun b => negb (same_id i b)) (storedAnalyses w).
Proof.
  intros F.
  destruct (findIndex_find_Some _ _ _ F) as (k & Fk).
  destruct (findIndex_Some _ _ _ Fk) as (b & Lb & Sb & Nb).
  assert (b = a) as ->.
  { rewrite <- (take_drop_middle _ _ _ Lb) in F.
    rewrite find_app_None in F by exact Nb. simpl in F. rewrite Sb in F. congruence. }
  pose proof (storedAnalyses_available w a k Lb) as E.
  destruct (updateStatus_found i s w k a Fk Lb) as (w' & U & K).
  pose proof (keeps_storedAnalyses _ _ K) as S.
  rewrite storedAnalyses_with_analyses in S by exact E.
  exists w', (restamp (clock w) s a).
  split; [exact U|]. split.
  - rewrite getById_run, S. f_equal. f_equal.
    apply find_insert_findIndex; [exact Fk | exact Sb].
  - split; [reflexivity|]. split; [reflexivity|].
    split; [repeat split|]. rewrite S. split.
    + now apply (map_id_insert_same _ k a).
    + apply (filter_insert_rejected _ _ k a); [exact Lb | now rewrite Sb |].
      change (same_id i (restamp (clock w) s a)) with (same_id i a). now rewrite Sb.
Qed.

Lemma updateStatus_changes_one_record_witness :
  exists w' a',
    AnalysisStorage.updateStatus (H := asciiHost) "c" published
      (browser [taggedAB; taggedC] 7000) = (Returned true, w') /\
    AnalysisStorage.getById "c" w' = (Returned (Some a'), w') /\
    status (metadata a') = published /\
    updated_at (metadata a') = 7000.
Proof.
  destruct (updateStatus_changes_one_record (H := asciiHost)
              (browser [taggedAB; taggedC] 7000) "c" published taggedC eq_refl)
    as (w' & a' & U & G & S & T & _).
  exists w', a'. repeat split; assumption.
Defined.

(** X4: [updateStatus] of an id that no stored record has (also when
    the store is unavailable) returns [false] and changes nothing: the
    collection, the summary and its activity entries stay as they were. *)
Theorem updateStatus_of_unknown_id `{Host} (w : World) (i : string) (s : Status) :
  (forall b, In b (storedAnalyses w) -> id b <> i) ->
  AnalysisStorage.updateStatus i s w = (Returned false, w).
Proof.
  intros Hnone. apply updateStatus_missing, findIndex_find_None.
  apply find_None_not_In. intros I. apply in_map_iff in I as (b & Eb & Ib).
  now apply Hnone in Ib.
Qed.

Lemma updateStatus_of_unknown_id_witness :
  AnalysisStorage.updateStatus (H := asciiHost) "missing" archived
    (browser [taggedAB; taggedC] 0) =
  (Returned false, browser [taggedAB; taggedC] 0).
Proof.
  apply (updateStatus_of_unknown_id (H := asciiHost)).
  intros b [<-|[<-|[]]]; discriminate.
Defined.

(** ** The dashboard summary *)

Section Dashboard.
Context `{Host}.

Lemma getDashboardData_stored d w :
  storage_available w = true ->
  dashboard_data (localStorage w) = Some (Json d) ->
  AnalysisStorage.getDashboardData w = (Returned d, w).
Proof.
  intros E D. unfold AnalysisStorage.getDashboardData.
  rewrite (bind_run _ _ _ _ _ (isLocalStorageAvailable_run w)), E. cbn [negb].
  erewrite bind_run; cycle 1.
  { instantiate (1 := w). instantiate (1 := Some d).
    unfold try_catch, bind, getItem_DASHBOARD_DATA, localStorage_read.
    now rewrite E, D. }
  reflexivity.
Qed.

Lemma Array_slice_20 {A} (l : list A) : Array_slice l 0 20 = take 20 l.
Proof. apply (Array_slice_page l 0 20); lia. Qed.

Lemma In_Array_slice {A} (l : list A) start end_ x :
  In x (Array_slice l start end_) -> In x l.
Proof.
  unfold Array_slice. intros I. apply list_elem_of_In in I.
  apply list_elem_of_In.
  eapply subseteq_drop, subseteq_take, I.
Qed.

Lemma addDashboardActivity_explicit activity w d w1 :
  storage_available w = true ->
  AnalysisStorage.getDashboardData w = (Returned d, w1) ->
  AnalysisStorage.addDashboardActivity activity w =
  (Returned tt,
   with_dashboard
     {| totalAnalyses := totalAnalyses d;
        activeRentals := activeRentals d;
        totalRevenue := totalRevenue d;
        averageRentability := averageRentability d;
        recentActivity := Array_slice (activity :: recentActivity d) 0 20 |} w1).
Proof.
  intros E G.
  destruct (getDashboardData_run w) as (d0 & w0 & G0 & K & _).
  rewrite G in G0. injection G0 as <- <-.
  assert (E1 : storage_available w1 = true) by (destruct K; congruence).
  unfold AnalysisStorage.addDashboardActivity.
  rewrite (bind_run _ _ _ _ _ (isLocalStorageAvailable_run w)), E. cbn [negb].
  apply try_catch_run. rewrite (bind_run _ _ _ _ _ G).
  apply (setItem_DASHBOARD_DATA_run _ w1 E1).
Qed.

End Dashboard.

(** X5: on an available store [addDashboardActivity] puts the activity
    at the head of the activity log of the summary, keeps at most the
    19 entries that came first before it, so never more than 20, and
    leaves the four statistics and the stored analyses untouched. *)
Theorem addDashboardActivity_prepends `{Host} (w : World)
    (activity : DashboardActivity) :
  storage_available w = true ->
  exists d w1 w' d',
    AnalysisStorage.getDashboardData w = (Returned d, w1) /\
    AnalysisStorage.addDashboardActivity activity w = (Returned tt, w') /\
    AnalysisStorage.getDashboardData w' = (Returned d', w') /\
    recentActivity d' = activity :: take 19 (recentActivity d) /\
    (length (recentActivity d') <= 20)%nat /\
    totalAnalyses d' = totalAnalyses d /\
    activeRentals d' = activeRentals d /\
    totalRevenue d' = totalRevenue d /\
    averageRentability d' = averageRentability d /\
    storedAnalyses w' = storedAnalyses w.
Proof.
  intros E.
  destruct (getDashboardData_run w) as (d & w1 & G & K & _).
  pose proof (addDashboardActivity_explicit activity w d w1 E G) as A.
  assert (E1 : storage_available w1 = true) by (destruct K; congruence).
  eexists d, w1, _, _. split; [exact G|]. split; [exact A|].
  split; [apply getDashboardData_stored; [exact E1 | reflexivity]|].
  cbn [recentActivity totalAnalyses activeRentals totalRevenue averageRentability].
  rewrite Array_slice_20. cbn [take].
  split; [reflexivity|]. split; [cbn [length]; rewrite length_take; lia|].
  repeat split.
  rewrite (keeps_storedAnalyses _ _ (keeps_analyses_with_dashboard _ _)).
  apply (keeps_storedAnalyses _ _ K).
Qed.

Lemma addDashboardActivity_prepends_witness :
  exists w' d',
    AnalysisStorage.addDashboardActivity (H := asciiHost)
      {| act_id := "x"; act_type := price_updated; act_title := "t";
         act_description := "d"; act_date := 5; act_property_address := None |}
      (browser [taggedAB] 0) = (Returned tt, w') /\
    AnalysisStorage.getDashboardData (H := asciiHost) w' = (Returned d', w') /\
    (length (recentActivity d') <= 20)%nat.
Proof.
  destruct (addDashboardActivity_prepends (H := asciiHost) (browser [taggedAB] 0)
              {| act_id := "x"; act_type := price_updated; act_title := "t";
                 act_description := "d"; act_date := 5; act_property_address := None |}
              eq_refl) as (d & w1 & w' & d' & _ & A & G & _ & L & _).
  exists w', d'. repeat split; assumption.
Defined.

Lemma filter_length_le {A} (p : A -> bool) l :
  (length (List.filter p l) <= length l)%nat.
Proof.
  induction l as [|x l IH]; simpl; [lia|]. destruct (p x); simpl; lia.
Qed.

Lemma dashboardStats_bounds `{Host} (l : list SavedAnalysis) :
  totalAnalyses (dashboardStats l) = Z.of_nat (length l) /\
  0 <= activeRentals (dashboardStats l) <= totalAnalyses (dashboardStats l) /\
  (length (recentActivity (dashboardStats l)) <= 20)%nat.
Proof.
  cbn. split; [reflexivity|]. split.
  - pose proof (filter_length_le AnalysisStorage.isActive l). lia.
  - rewrite Array_slice_20, length_take. lia.
Qed.

(** X6: after [save] and after [delete] on an available store the
    stored summary is the one derived from the stored collection:
    [getDashboardData] returns it, its count of analyses is the length of
    the collection, its count of active rentals lies between 0 and that
    count, and its activity log has at most 20 entries. *)
Theorem summary_follows_the_collection `{Host} (w : World) (a : SavedAnalysis)
    (i : string) :
  storage_available w = true ->
  (exists w',
     AnalysisStorage.save a w = (Returned true, w') /\
     AnalysisStorage.getDashboardData w' =
       (Returned (dashboardStats (storedAnalyses w')), w')) /\
  (exists w',
     AnalysisStorage.delete i w = (Returned true, w') /\
     AnalysisStorage.getDashboardData w' =
       (Returned (dashboardStats (storedAnalyses w')), w')) /\
  (forall l,
     totalAnalyses (dashboardStats l) = Z.of_nat (length l) /\
     0 <= activeRentals (dashboardStats l) <= totalAnalyses (dashboardStats l) /\
     (length (recentActivity (dashboardStats l)) <= 20)%nat).
Proof.
  intros E. split; [|split; [|apply dashboardStats_bounds]].
  - eexists. split; [apply (save_run a w E)|]. cbv zeta.
    rewrite (keeps_storedAnalyses _ _ (keeps_analyses_with_dashboard _ _)).
    rewrite storedAnalyses_with_analyses by exact E.
    apply getDashboardData_stored; [exact E | reflexivity].
  - eexists. split; [apply (delete_run i w E)|]. cbv zeta.
    rewrite (keeps_storedAnalyses _ _ (keeps_analyses_with_dashboard _ _)).
    rewrite storedAnalyses_with_analyses by exact E.
    apply getDashboardData_stored; [exact E | reflexivity].
Qed.

Lemma summary_follows_the_collection_witness :
  exists w',
    AnalysisStorage.save (H := asciiHost) staleRecord (browser [publishedRecord] 0) =
      (Returned true, w') /\
    AnalysisStorage.getDashboardData (H := asciiHost) w' =
      (Returned (dashboardStats (H := asciiHost) (storedAnalyses w')), w').
Proof.
  exact (proj1 (summary_follows_the_collection (H := asciiHost)
                  (browser [publishedRecord] 0) staleRecord "x" eq_refl)).
Defined.

(** X7: the activity log does not outlive a [save]: after
    [addDashboardActivity] and then [save], on an available store, the
    log of the summary holds only activities derived from the stored
    analyses (one per analysis, one more per analysis sent to the
    client); the appended entry is in it only if it is such a one. *)
Theorem save_rebuilds_the_activity_log `{Host} (w : World)
    (activity : DashboardActivity) (a : SavedAnalysis) :
  sort_permutes H ->
  storage_available w = true ->
  exists w1 w2 d,
    AnalysisStorage.addDashboardActivity activity w = (Returned tt, w1) /\
    AnalysisStorage.save a w1 = (Returned true, w2) /\
    AnalysisStorage.getDashboardData w2 = (Returned d, w2) /\
    forall e, In e (recentActivity d) ->
      exists b, In b (storedAnalyses w2) /\ In e (AnalysisStorage.activitiesOf b).
Proof.
  intros P E.
  destruct (addDashboardActivity_run activity w) as (w1 & A & K & _).
  assert (E1 : storage_available w1 = true) by (destruct K; congruence).
  pose proof (save_run a w1 E1) as S. cbv zeta in S.
  set (w2 := with_dashboard _ _) in S.
  assert (G : AnalysisStorage.getDashboardData w2 =
              (Returned (dashboardStats (storedAnalyses w2)), w2)).
  { unfold w2. rewrite (keeps_storedAnalyses _ _ (keeps_analyses_with_dashboard _ _)).
    rewrite storedAnalyses_with_analyses by exact E1.
    apply getDashboardData_stored; [exact E1 | reflexivity]. }
  exists w1, w2, (dashboardStats (storedAnalyses w2)).
  split; [exact A|]. split; [exact S|]. split; [exact G|].
  intros e I. cbn in I. apply In_Array_slice in I.
  apply (Permutation_in _ (P _ _ _)) in I.
  apply in_flat_map in I. exact I.
Qed.

Lemma save_rebuilds_the_activity_log_witness :
  exists w1 w2 d,
    AnalysisStorage.addDashboardActivity (H := asciiHost)
      {| act_id := "x"; act_type := price_updated; act_title := "t";
         act_description := "d"; act_date := 5; act_property_address := None |}
      (browser [taggedAB] 0) = (Returned tt, w1) /\
    AnalysisStorage.save (H := asciiHost) taggedC w1 = (Returned true, w2) /\
    AnalysisStorage.getDashboardData (H := asciiHost) w2 = (Returned d, w2).
Proof.
  destruct (save_rebuilds_the_activity_log (H := asciiHost) (browser [taggedAB] 0)
              {| act_id := "x"; act_type := price_updated; act_title := "t";
                 act_description := "d"; act_date := 5; act_property_address := None |}
              taggedC (V8_sort_permutes _) eq_refl) as (w1 & w2 & d & A & S & G & _).
  exists w1, w2, d. repeat split; assumption.
Defined.

(** X8: [clearAll] on an available store returns [true] and removes
    both keys: the collection reads as empty, no id is found, and the
    summary read next is recomputed to the empty one. *)
Theorem clearAll_empties_the_store `{Host} (w : World) (i : string) :
  sort_permutes H ->
  storage_available w = true ->
  exists w',
    AnalysisStorage.clearAll w = (Returned true, w') /\
    rental_analyses (localStorage w') = None /\
    dashboard_data (localStorage w') = None /\
    AnalysisStorage.getAll w' = (Returned [], w') /\
    AnalysisStorage.getById i w' = (Returned None, w') /\
    fst (AnalysisStorage.getDashboardData w') = Returned emptyDashboard.
Proof.
  intros P E. eexists. split.
  - unfold AnalysisStorage.clearAll.
    rewrite (bind_run _ _ _ _ _ (isLocalStorageAvailable_run w)), E. cbn [negb].
    apply try_catch_run.
    unfold bind, removeItem_ANALYSES, removeItem_DASHBOARD_DATA, localStorage_write.
    rewrite E. cbn. rewrite E. reflexivity.
  - set (w' := set_localStorage _ _).
    assert (S : storedAnalyses w' = []) by (unfold storedAnalyses; cbn; now rewrite E).
    split; [reflexivity|]. split; [reflexivity|].
    split; [now rewrite getAll_run, S|]. split; [now rewrite getById_run, S|].
    unfold AnalysisStorage.getDashboardData.
    rewrite (bind_run _ _ _ _ _ (isLocalStorageAvailable_run w')).
    replace (storage_available w') with true by (symmetry; exact E). cbn [negb].
    erewrite bind_run; cycle 1.
    { instantiate (1 := w'). instantiate (1 := None).
      unfold try_catch, bind, getItem_DASHBOARD_DATA, localStorage_read.
      cbn. now rewrite E. }
    cbv iota.
    erewrite bind_run; [|apply updateDashboardStats_run].
    replace (storage_available w') with true by (symmetry; exact E).
    unfold bind, getItem_DASHBOARD_DATA, localStorage_read. cbn. rewrite E. cbn.
    rewrite S. unfold dashboardStats, emptyDashboard. cbn.
    rewrite (Permutation_nil (Permutation_sym (P _ _ []))). reflexivity.
Qed.

Lemma clearAll_empties_the_store_witness :
  exists w',
    AnalysisStorage.clearAll (browser [taggedAB; taggedC] 0) = (Returned true, w') /\
    AnalysisStorage.getAll w' = (Returned [], w').
Proof.
  destruct (clearAll_empties_the_store (H := asciiHost) (browser [taggedAB; taggedC] 0)
              "ab" (V8_sort_permutes _) eq_refl) as (w' & C & _ & _ & G & _).
  exists w'. split; assumption.
Defined.

(** ** Export and import *)

Section ExportImport.
Context `{Host}.

Lemma importData_run l d w :
  storage_available w = true ->
  e_analyses d = AnalysesArray l ->
  AnalysisStorage.importData (Json d) w =
  (Returned true, with_dashboard (dashboardStats l) (with_analyses l w)).
Proof.
  intros E A. unfold AnalysisStorage.importData. apply try_catch_run.
  unfold JSON_parse. rewrite (bind_run _ _ w d w eq_refl), A.
  rewrite (bind_run _ _ _ _ _ (setItem_ANALYSES_run l w E)).
  erewrite bind_run; [|apply updateDashboardStats_run].
  cbn [storage_available with_analyses set_localStorage]. rewrite E.
  now rewrite storedAnalyses_with_analyses.
Qed.

Lemma exportData_run w :
  exists d w1,
    AnalysisStorage.getDashboardData w = (Returned d, w1) /\
    keeps_analyses w w1 /\
    AnalysisStorage.exportData w =
    (Returned (Json {| e_analyses := AnalysesArray (storedAnalyses w);
                       e_dashboardData := Some d;
                       e_exportedAt := Some (clock w) |}), w1).
Proof.
  destruct (getDashboardData_run w) as (d & w1 & G & K & _).
  exists d, w1. split; [exact G|]. split; [exact K|].
  unfold AnalysisStorage.exportData.
  rewrite (bind_run _ _ _ _ _ (getAll_run w)), (bind_run _ _ _ _ _ G).
  unfold bind, Date_now, ret. destruct K as (_ & _ & _ & ->). reflexivity.
Qed.

End ExportImport.

(** X9: [importData] returns [false] and changes nothing when the
    text does not parse, when it has no [analyses] or [analyses] is not
    an array, and whenever the store is unavailable. *)
Theorem importData_rejects `{Host} (w : World) :
  AnalysisStorage.importData Garbage w = (Returned false, w) /\
  (forall d,
     e_analyses d = NoAnalyses \/ e_analyses d = NotAnArray ->
     AnalysisStorage.importData (Json d) w = (Returned false, w)) /\
  (storage_available w = false ->
   forall text, AnalysisStorage.importData text w = (Returned false, w)).
Proof.
  split; [reflexivity|]. split.
  - intros d [A|A]; unfold AnalysisStorage.importData, try_catch, bind, JSON_parse, ret;
      now rewrite A.
  - intros E [d|]; [|reflexivity].
    unfold AnalysisStorage.importData, try_catch, bind, JSON_parse, ret.
    destruct (e_analyses d); try reflexivity.
    unfold setItem_ANALYSES, localStorage_write. now rewrite E.
Qed.

(** X10: [importData] of text whose [analyses] is an array of analysis
    records, on an available store, returns [true] and replaces the
    collection by that array, whatever was stored, with the summary
    derived from it. *)
Theorem importData_replaces `{Host} (w : World) (d : ExportData)
    (l : list SavedAnalysis) :
  storage_available w = true ->
  e_analyses d = AnalysesArray l ->
  exists w',
    AnalysisStorage.importData (Json d) w = (Returned true, w') /\
    AnalysisStorage.getAll w' = (Returned l, w') /\
    AnalysisStorage.getDashboardData w' = (Returned (dashboardStats l), w').
Proof.
  intros E A. eexists. split; [apply (importData_run l d w E A)|].
  split.
  - rewrite getAll_run.
    rewrite (keeps_storedAnalyses _ _ (keeps_analyses_with_dashboard _ _)).
    now rewrite storedAnalyses_with_analyses.
  - apply getDashboardData_stored; [exact E | reflexivity].
Qed.

Lemma importData_replaces_witness :
  exists w',
    AnalysisStorage.importData (H := asciiHost)
      (Json {| e_analyses := AnalysesArray [taggedC];
               e_dashboardData := None; e_exportedAt := None |})
      (browser [taggedAB; publishedRecord] 0) = (Returned true, w') /\
    AnalysisStorage.getAll w' = (Returned [taggedC], w').
Proof.
  destruct (importData_replaces (H := asciiHost) (browser [taggedAB; publishedRecord] 0)
              {| e_analyses := AnalysesArray [taggedC];
                 e_dashboardData := None; e_exportedAt := None |}
              [taggedC] eq_refl eq_refl) as (w' & I & G & _).
  exists w'. split; assumption.
Defined.

(** X11: what [exportData] writes, [importData] reads back: importing
    the export of one world into any available store leaves there the
    collection the export was taken from. *)
Theorem export_then_import `{Host} (w target : World) :
  storage_available target = true ->
  exists text w1 target',
    AnalysisStorage.exportData w = (Returned text, w1) /\
    AnalysisStorage.importData text target = (Returned true, target') /\
    AnalysisStorage.getAll target' = (Returned (storedAnalyses w), target') /\
    storedAnalyses w1 = storedAnalyses w.
Proof.
  intros E.
  destruct (exportData_run w) as (d & w1 & _ & K & X).
  pose proof (importData_run (storedAnalyses w)
                {| e_analyses := AnalysesArray (storedAnalyses w);
                   e_dashboardData := Some d; e_exportedAt := Some (clock w) |}
                target E eq_refl) as I.
  cbv zeta in I. set (target' := with_dashboard _ _) in I.
  eexists _, w1, target'. split; [exact X|]. split; [exact I|].
  split; [|apply (keeps_storedAnalyses _ _ K)].
  rewrite getAll_run. unfold target'.
  rewrite (keeps_storedAnalyses _ _ (keeps_analyses_with_dashboard _ _)).
  now rewrite storedAnalyses_with_analyses.
Qed.

Lemma export_then_import_witness :
  exists text w1 target',
    AnalysisStorage.exportData (H := asciiHost) (browser [taggedAB; taggedC] 10) =
      (Returned text, w1) /\
    AnalysisStorage.importData (H := asciiHost) text (browser [] 20) =
      (Returned true, target') /\
    AnalysisStorage.getAll target' = (Returned [taggedAB; taggedC], target').
Proof.
  destruct (export_then_import (H := asciiHost) (browser [taggedAB; taggedC] 10)
              (browser [] 20) eq_refl) as (text & w1 & target' & X & I & G & _).
  exists text, w1, target'. repeat split; assumption.
Defined.

Lemma importData_rejects_witness :
  AnalysisStorage.importData (H := asciiHost)
    (Json {| e_analyses := AnalysesArray [taggedC];
             e_dashboardData := None; e_exportedAt := None |}) (server 0) =
  (Returned false, server 0).
Proof.
  exact (proj2 (proj2 (importData_rejects (H := asciiHost) (server 0))) eq_refl _).
Defined.

(** ** The [PATCH] route *)

Lemma patchEntry_invariant now existing updates entry :
  patchInvariant existing updates ->
  patchInvariant existing (AnalysisRoute.patchEntry now existing updates entry).
Proof.
  intros (I & P & A & C & M).
  destruct entry; cbn; unfold patchInvariant; cbn;
    (split; [exact I|]); (split; [exact P|]); (split; [exact A|]);
    (split; [exact C|]);
    try (intros m [= <-]; now cbn); exact M.
Qed.

Lemma patch_fold_invariant now existing body :
  forall updates,
    patchInvariant existing updates ->
    patchInvariant existing
      (fold_left (AnalysisRoute.patchEntry now existing) body updates).
Proof.
  induction body as [|entry body IH]; intros updates I; simpl; [exact I|].
  apply IH. now apply patchEntry_invariant.
Qed.

Lemma patched_identity now existing body :
  let r := AnalysisRoute.patched now existing body in
  id r = id existing /\
  property r = property existing /\
  analysis r = analysis existing /\
  calculations r = calculations existing /\
  created_at (metadata r) = created_at (metadata existing) /\
  broker_email (metadata r) = broker_email (metadata existing) /\
  updated_at (metadata r) = now.
Proof.
  assert (I0 : patchInvariant existing AnalysisRoute.noUpdates).
  { unfold patchInvariant. cbn. repeat split; discriminate. }
  destruct (patch_fold_invariant now existing body _ I0) as (I & P & A & C & M).
  cbv zeta. unfold AnalysisRoute.patched, analysisStore.mergeUpdates. cbn.
  rewrite I, P, A, C. cbn. repeat split.
  - destruct (p_metadata _) as [m|] eqn:E; cbn; [apply (M m eq_refl) | reflexivity].
  - destruct (p_metadata _) as [m|] eqn:E; cbn; [apply (M m eq_refl) | reflexivity].
Qed.

(** X12: [PATCH] of a record the repository finds, on an available
    store, answers 200 with the patched record and stores it under the
    same id; whatever the body holds, the record keeps its id,
    property, analysis, calculations, [created_at] and broker, and its
    [updated_at] is the time of the request. *)
Theorem PATCH_keeps_identity `{Host} (w w1 : World) (i : string)
    (existing : SavedAnalysis) (body : list AnalysisRoute.PatchEntry) :
  i <> "" ->
  storage_available w = true ->
  analysisStore.getAnalysisById i w = (Returned (Some existing), w1) ->
  exists r w2,
    AnalysisRoute.PATCH i body w = (Returned (AnalysisRoute.Patched200 r), w2) /\
    AnalysisStorage.getById (id existing) w2 = (Returned (Some r), w2) /\
    id r = id existing /\
    property r = property existing /\
    analysis r = analysis existing /\
    calculations r = calculations existing /\
    created_at (metadata r) = created_at (metadata existing) /\
    broker_email (metadata r) = broker_email (metadata existing) /\
    updated_at (metadata r) = clock w.
Proof.
  intros Hi E G.
  destruct (getAnalysisById_found i w existing w1 G) as (Ea & _ & Ec & _).
  assert (E1 : storage_available w1 = true) by congruence.
  set (r := AnalysisRoute.patched (clock w1) existing body).
  destruct (saveAnalysis_run r w1 E1) as (w2 & S & _ & Ls & _).
  pose proof (patched_identity (clock w1) existing body) as Id. cbv zeta in Id.
  fold r in Id. destruct Id as (Ii & Ip & Ia & Icc & Icr & Ib & Iu).
  exists r, w2. split.
  - unfold AnalysisRoute.PATCH.
    replace (String.eqb i "") with false by (symmetry; now apply String.eqb_neq).
    apply try_catch_run. rewrite (bind_run _ _ _ _ _ G).
    unfold bind at 1, Date_now. fold r. now rewrite (bind_run _ _ _ _ _ S).
  - split; [|repeat split; try assumption; congruence].
    rewrite getById_run, Ls, <- Ii, find_upsert.
    assert (Hr : with_metadata (with_updated_at (clock w1) (metadata r)) r = r)
      by reflexivity.
    rewrite Hr. destruct (List.find (same_id (id r)) (storedAnalyses w1)); reflexivity.
Qed.

Lemma PATCH_keeps_identity_witness :
  exists r w2,
    AnalysisRoute.PATCH (H := asciiHost) "ab"
      [AnalysisRoute.PatchOther "id"; AnalysisRoute.PatchTitle "Nuevo"]
      (browser [taggedAB; taggedC] 4000) =
      (Returned (AnalysisRoute.Patched200 r), w2) /\
    id r = "ab" /\
    updated_at (metadata r) = 4000.
Proof.
  destruct (PATCH_keeps_identity (H := asciiHost) (browser [taggedAB; taggedC] 4000)
              (snd (analysisStore.getAnalysisById "ab" (browser [taggedAB; taggedC] 4000)))
              "ab" taggedAB
              [AnalysisRoute.PatchOther "id"; AnalysisRoute.PatchTitle "Nuevo"]
              ltac:(discriminate) eq_refl ltac:(vm_compute; reflexivity))
    as (r & w2 & P & _ & I & _ & _ & _ & _ & _ & U).
  exists r, w2. repeat split; assumption.
Defined.

Lemma patch_fold_metadata now existing body :
  forall updates,
    forallb (fun e => negb (touchesMetadata e)) body = true ->
    p_metadata (fold_left (AnalysisRoute.patchEntry now existing) body updates) =
    p_metadata updates.
Proof.
  induction body as [|entry body IH]; intros updates Hb; simpl; [reflexivity|].
  simpl in Hb. apply andb_true_iff in Hb as [He Hb].
  rewrite IH by exact Hb. now destruct entry.
Qed.

(** X13: of the entries [status], [tags] and [notes] of a [PATCH] body
    only the last one reaches the metadata: every entry before it is
    without effect on the metadata.  So a body that sets the status
    and then the tags leaves the status as it was. *)
Theorem PATCH_last_metadata_entry_wins (now : Z) (existing : SavedAnalysis)
    (before after : list AnalysisRoute.PatchEntry) (entry : AnalysisRoute.PatchEntry) :
  touchesMetadata entry = true ->
  forallb (fun e => negb (touchesMetadata e)) after = true ->
  metadata (AnalysisRoute.patched now existing (before ++ entry :: after)) =
  metadata (AnalysisRoute.patched now existing [entry]) /\
  forall s t,
    status (metadata (AnalysisRoute.patched now existing
                        [AnalysisRoute.PatchStatus s; AnalysisRoute.PatchTags t])) =
    status (metadata existing).
Proof.
  intros He Ha. split; [|reflexivity].
  unfold AnalysisRoute.patched, analysisStore.mergeUpdates. cbn [metadata].
  rewrite fold_left_app. cbn [fold_left].
  rewrite patch_fold_metadata by exact Ha.
  destruct entry; try discriminate; reflexivity.
Qed.

Lemma PATCH_last_metadata_entry_wins_witness :
  metadata (AnalysisRoute.patched 4000 taggedAB
              ([AnalysisRoute.PatchStatus published] ++
               AnalysisRoute.PatchNotes "revisar" :: [AnalysisRoute.PatchTitle "Nuevo"])) =
  metadata (AnalysisRoute.patched 4000 taggedAB [AnalysisRoute.PatchNotes "revisar"]).
Proof.
  exact (proj1 (PATCH_last_metadata_entry_wins 4000 taggedAB
                  [AnalysisRoute.PatchStatus published] [AnalysisRoute.PatchTitle "Nuevo"]
                  (AnalysisRoute.PatchNotes "revisar") eq_refl eq_refl)).
Defined.

Lemma patch_fold_other now existing body :
  forall updates,
    fold_left (AnalysisRoute.patchEntry now existing)
      (List.filter (fun e => negb (isOtherKey e)) body) updates =
    fold_left (AnalysisRoute.patchEntry now existing) body updates.
Proof.
  induction body as [|entry body IH]; intros updates; simpl; [reflexivity|].
  destruct entry; simpl; apply IH.
Qed.

(** X14: [PATCH] ignores every key but [status], [tags], [notes] and
    [title]: dropping the other keys from the body gives the same
    patched record, and a body with no accepted key changes nothing of
    the record but [updated_at]. *)
Theorem PATCH_ignores_other_keys (now : Z) (existing : SavedAnalysis)
    (body : list AnalysisRoute.PatchEntry) :
  AnalysisRoute.patched now existing
    (List.filter (fun e => negb (isOtherKey e)) body) =
  AnalysisRoute.patched now existing body /\
  (forallb isOtherKey body = true ->
   AnalysisRoute.patched now existing body =
   with_metadata (with_updated_at now (metadata existing)) existing).
Proof.
  split.
  - unfold AnalysisRoute.patched. now rewrite patch_fold_other.
  - intros Hb. unfold AnalysisRoute.patched.
    rewrite <- patch_fold_other.
    replace (List.filter (fun e => negb (isOtherKey e)) body) with (@nil AnalysisRoute.PatchEntry).
    + reflexivity.
    + symmetry. induction body as [|e body IH]; [reflexivity|].
      simpl in *. apply andb_true_iff in Hb as [He Hb]. rewrite He. simpl. now apply IH.
Qed.

Lemma PATCH_ignores_other_keys_witness :
  AnalysisRoute.patched 4000 taggedAB
    [AnalysisRoute.PatchOther "id"; AnalysisRoute.PatchOther "created_at"] =
  with_metadata (with_updated_at 4000 (metadata taggedAB)) taggedAB.
Proof.
  exact (proj2 (PATCH_ignores_other_keys 4000 taggedAB
                  [AnalysisRoute.PatchOther "id"; AnalysisRoute.PatchOther "created_at"])
           eq_refl).
Defined.

(** ** More on the list query *)

Lemma passWhen_spec {B} (x : option B) isTruthy p a :
  passWhen x isTruthy p a = true <->
  forall v, x = Some v -> isTruthy v = true -> p v a = true.
Proof.
  unfold passWhen. destruct x as [v|].
  - destruct (isTruthy v) eqn:T.
    + split; [intros Hp u [= <-] _; exact Hp | intros Hp; now apply Hp].
    + split; [intros _ u [= <-]; congruence | reflexivity].
  - split; [discriminate | reflexivity].
Qed.

Lemma truthy_spec v : AnalysesRoute.truthy v = true <-> v <> 0.
Proof. unfold AnalysesRoute.truthy. rewrite negb_true_iff. apply Z.eqb_neq. Qed.

Lemma nonempty_spec s : AnalysesRoute.nonempty s = true <-> s <> "".
Proof. unfold AnalysesRoute.nonempty. rewrite negb_true_iff. apply String.eqb_neq. Qed.

(** X15: the filters of the list query are conjunctive and keep the
    stored order: a record is among the matches iff it is stored and
    satisfies every filter that is set and truthy -- the search text,
    lower-cased by the engine, occurs in its title or its address,
    lower-cased likewise; its status is the one asked for; its value
    lies within the bounds, these included; its bedrooms and bathrooms
    are the numbers asked for; it has one of the tags; it was created
    within the dates, these included -- and the matches are a sublist
    of the stored records.  This holds for every lower-casing the host
    may have. *)
Theorem filters_are_conjunctive `{Host} (filters : AnalysisFilters)
    (l : list SavedAnalysis) (a : SavedAnalysis) :
  (In a (AnalysesRoute.applyFilters filters l) <->
   In a l /\
   (forall s, search filters = Some s -> s <> "" ->
      String_includes (String_toLowerCase (title a)) (String_toLowerCase s) = true \/
      String_includes (String_toLowerCase (address (property a)))
        (String_toLowerCase s) = true) /\
   (forall st, f_status filters = Some st -> status (metadata a) = st) /\
   (forall v, minValue filters = Some v -> v <> 0 -> v <= value_clp (property a)) /\
   (forall v, maxValue filters = Some v -> v <> 0 -> value_clp (property a) <= v) /\
   (forall n, f_bedrooms filters = Some n -> n <> 0 -> bedrooms (property a) = n) /\
   (forall n, f_bathrooms filters = Some n -> n <> 0 -> bathrooms (property a) = n) /\
   (forall ts, f_tags filters = Some ts -> ts <> [] ->
      exists tag own, In tag ts /\ tags (metadata a) = Some own /\ In tag own) /\
   (forall d, dateFrom filters = Some d ->
      exists t, d = ValidDate t /\ t <= created_at (metadata a)) /\
   (forall d, dateTo filters = Some d ->
      exists t, d = ValidDate t /\ created_at (metadata a) <= t)) /\
  sublist (AnalysesRoute.applyFilters filters l) l.
Proof.
  split.
  - rewrite applyFilters_filter, filter_In. unfold passes.
    rewrite !andb_true_iff, !passWhen_spec.
    split.
    + intros (Il & ((((((((Hs & Hst) & Hmin) & Hmax) & Hbed) & Hbath) & Htag) & Hfrom) & Hto)).
      split; [exact Il|]. repeat split.
      * intros s Es Ns. apply orb_true_iff. apply (Hs s Es). now apply nonempty_spec.
      * intros st Est. specialize (Hst st Est eq_refl). now apply bool_decide_eq_true in Hst.
      * intros v Ev Nv. apply Z.leb_le, (Hmin v Ev). now apply truthy_spec.
      * intros v Ev Nv. apply Z.leb_le, (Hmax v Ev). now apply truthy_spec.
      * intros n En Nn. apply Z.eqb_eq, (Hbed n En). now apply truthy_spec.
      * intros n En Nn. apply Z.eqb_eq, (Hbath n En). now apply truthy_spec.
      * intros ts Ets Nts. apply matchesTags_spec, (Htag ts Ets).
        apply Z.ltb_lt. destruct ts; [congruence | cbn [length]; lia].
      * intros d Ed. specialize (Hfrom d Ed eq_refl). destruct d as [t|]; [|discriminate].
        exists t. split; [reflexivity | now apply Z.leb_le].
      * intros d Ed. specialize (Hto d Ed eq_refl). destruct d as [t|]; [|discriminate].
        exists t. split; [reflexivity | now apply Z.leb_le].
    + intros (Il & Hs & Hst & Hmin & Hmax & Hbed & Hbath & Htag & Hfrom & Hto).
      split; [exact Il|]. repeat split.
      * intros s Es Ns. apply orb_true_iff, (Hs s Es). now apply nonempty_spec.
      * intros st Est _. apply bool_decide_eq_true. now apply Hst.
      * intros v Ev Nv. apply Z.leb_le, (Hmin v Ev). now apply truthy_spec.
      * intros v Ev Nv. apply Z.leb_le, (Hmax v Ev). now apply truthy_spec.
      * intros n En Nn. apply Z.eqb_eq, (Hbed n En). now apply truthy_spec.
      * intros n En Nn. apply Z.eqb_eq, (Hbath n En). now apply truthy_spec.
      * intros ts Ets Nts. apply matchesTags_spec, (Htag ts Ets).
        intros ->. discriminate.
      * intros d Ed _. destruct (Hfrom d Ed) as (t & -> & Ht). now apply Z.leb_le.
      * intros d Ed _. destruct (Hto d Ed) as (t & -> & Ht). now apply Z.leb_le.
  - rewrite applyFilters_filter. clear a.
    induction l as [|b l IH]; simpl; [constructor|].
    destruct (passes filters b); now constructor.
Qed.

(** X16: a filter date that is not a valid date matches no record:
    with such a [dateFrom] or [dateTo] the list query has no matches. *)
Theorem invalid_date_matches_nothing `{Host} (filters : AnalysisFilters)
    (l : list SavedAnalysis) :
  dateFrom filters = Some InvalidDate \/ dateTo filters = Some InvalidDate ->
  AnalysesRoute.applyFilters filters l = [].
Proof.
  intros Hd. destruct (AnalysesRoute.applyFilters filters l) as [|a rest] eqn:E;
    [reflexivity|].
  assert (I : In a (AnalysesRoute.applyFilters filters l)) by (rewrite E; now left).
  rewrite applyFilters_filter, filter_In in I. destruct I as [_ I].
  unfold passes in I. rewrite !andb_true_iff, !passWhen_spec in I.
  destruct I as [[_ Hfrom] Hto].
  destruct Hd as [Hd|Hd];
    [specialize (Hfrom _ Hd eq_refl) | specialize (Hto _ Hd eq_refl)];
    discriminate.
Qed.

Lemma invalid_date_matches_nothing_witness :
  AnalysesRoute.applyFilters (H := asciiHost)
    {| search := None; f_status := None; dateFrom := Some InvalidDate; dateTo := None;
       minValue := None; maxValue := None; f_bedrooms := None; f_bathrooms := None;
       f_tags := None; sortBy := None; sortOrder := None |}
    [taggedAB; taggedC] = [].
Proof. apply (invalid_date_matches_nothing (H := asciiHost)). now left. Defined.

Section MoreListQuery.
Context `{Host}.

(** X17: the records of a response are matches of the filters, hence
    stored records; [total] does not exceed the number of stored
    records; and for [page >= 1] a page holds at most [pageSize]
    records. *)
Theorem response_holds_matches (filters : AnalysisFilters) (page pageSize : Z)
    (l : list SavedAnalysis) :
  sort_permutes H ->
  let response := AnalysesRoute.listResponse filters page pageSize l in
  (forall a, In a (analyses response) ->
     In a (AnalysesRoute.applyFilters filters l) /\ In a l) /\
  0 <= total response <= Z.of_nat (length l) /\
  (1 <= page -> 0 <= pageSize -> Z.of_nat (length (analyses response)) <= pageSize).
Proof.
  intros P response. split; [|split].
  - intros a I. unfold response, AnalysesRoute.listResponse in I. cbn [analyses] in I.
    apply In_Array_slice in I. apply (Permutation_in _ (P _ _ _)) in I.
    split; [exact I|].
    rewrite applyFilters_filter, filter_In in I. apply I.
  - unfold response, AnalysesRoute.listResponse. cbn [total].
    rewrite (sorted_length P), applyFilters_filter.
    pose proof (filter_length_le (passes filters) l). lia.
  - intros Hp Hs. unfold response, AnalysesRoute.listResponse. cbn [analyses].
    rewrite Array_slice_page by nia. rewrite length_take. lia.
Qed.

(** X18: the pages of a query tile its sorted matches: for a page size
    that is not negative, the pages 1 to [n], one after the other, are
    the first [n * pageSize] sorted matches. *)
Theorem pages_tile_the_matches (filters : AnalysisFilters) (pageSize : Z)
    (l : list SavedAnalysis) (n : nat) :
  0 <= pageSize ->
  flat_map
    (fun p => analyses (AnalysesRoute.listResponse filters (Z.of_nat p) pageSize l))
    (seq 1 n) =
  take (n * Z.to_nat pageSize)
    (Array_sort (AnalysesRoute.compareFn filters)
       (AnalysesRoute.applyFilters filters l)).
Proof.
  intros Hs. induction n as [|n IH]; [reflexivity|].
  rewrite seq_S, flat_map_app, IH. cbn [flat_map]. rewrite app_nil_r.
  unfold AnalysesRoute.listResponse at 1. cbn [analyses].
  rewrite Array_slice_page by lia.
  replace (Z.to_nat ((Z.of_nat (1 + n) - 1) * pageSize))
    with (n * Z.to_nat pageSize)%nat by nia.
  rewrite take_take_drop. f_equal. lia.
Qed.

(** X19: for [page >= 1] and a positive page size, [hasMore] says
    whether the next page holds a record. *)
Theorem hasMore_announces_next_page (filters : AnalysisFilters)
    (page pageSize : Z) (l : list SavedAnalysis) :
  sort_permutes H ->
  1 <= page ->
  0 < pageSize ->
  hasMore (AnalysesRoute.listResponse filters page pageSize l) = true <->
  analyses (AnalysesRoute.listResponse filters (page + 1) pageSize l) <> [].
Proof.
  intros P Hp Hs. unfold AnalysesRoute.listResponse. cbn [hasMore analyses].
  rewrite Array_slice_page by nia. rewrite Z.ltb_lt.
  replace (page + 1 - 1) with page by lia.
  replace ((page - 1) * pageSize + pageSize) with (page * pageSize) by lia.
  set (sorted := Array_sort _ _).
  split.
  - intros Hlt E. apply (f_equal length) in E.
    rewrite length_take, length_drop in E. simpl in E. nia.
  - intros Hne. destruct (Z.lt_ge_cases (page * pageSize) (Z.of_nat (length sorted)))
      as [Hlt|Hge]; [exact Hlt|].
    exfalso. apply Hne. rewrite drop_ge by nia. apply take_nil.
Qed.

End MoreListQuery.

Lemma response_holds_matches_witness :
  0 <= total (AnalysesRoute.listResponse (H := asciiHost) defaultFilters 1 10 twelve) <= 12.
Proof.
  exact (proj1 (proj2 (response_holds_matches (H := asciiHost) defaultFilters 1 10 twelve
                         (V8_sort_permutes _)))).
Defined.

Lemma pages_tile_the_matches_witness :
  flat_map
    (fun p => analyses (AnalysesRoute.listResponse (H := asciiHost) defaultFilters
                          (Z.of_nat p) 5 twelve))
    (seq 1 3) =
  take (3 * Z.to_nat 5)
    (Array_sort (Host := asciiHost) (AnalysesRoute.compareFn defaultFilters)
       (AnalysesRoute.applyFilters (H := asciiHost) defaultFilters twelve)).
Proof.
  apply (pages_tile_the_matches (H := asciiHost) defaultFilters 5 twelve 3). lia.
Defined.

Lemma hasMore_announces_next_page_witness :
  hasMore (AnalysesRoute.listResponse (H := asciiHost) defaultFilters 2 5 twelve) = true <->
  analyses (AnalysesRoute.listResponse (H := asciiHost) defaultFilters (2 + 1) 5 twelve) <> [].
Proof.
  apply (hasMore_announces_next_page (H := asciiHost) defaultFilters 2 5 twelve
           (V8_sort_permutes _)); lia.
Defined.

(** ** The order of a listing on V8 *)

Section V8Sorted.
Context {A : Type} (comparefn : A -> A -> Z) (R : A -> A -> Prop).
Hypothesis R_before : forall x y, comparefn x y < 0 -> R x y.
Hypothesis R_after : forall x y, 0 <= comparefn x y -> R y x.
Hypothesis R_trans : forall x y z, R x y -> R y z -> R x z.

Lemma StronglySorted_app_iff (l1 l2 : list A) :
  StronglySorted R (l1 ++ l2) <->
  StronglySorted R l1 /\ StronglySorted R l2 /\
  (forall x y, In x l1 -> In y l2 -> R x y).
Proof.
  induction l1 as [|a l1 IH]; simpl.
  - split; [intros S; repeat split; [constructor | exact S | tauto] | tauto].
  - split.
    + intros S. apply StronglySorted_inv in S as [S F].
      apply IH in S as (S1 & S2 & C). rewrite List.Forall_app in F. destruct F as [F1 F2].
      split; [now constructor|]. split; [exact S2|].
      intros x y [<-|Ix] Iy; [|now apply C].
      rewrite List.Forall_forall in F2. now apply F2.
    + intros (S1 & S2 & C). apply StronglySorted_inv in S1 as [S1 F1].
      constructor; [apply IH; repeat split; auto|].
      rewrite List.Forall_app. split; [exact F1|].
      apply List.Forall_forall. intros y Iy. apply C; auto.
Qed.

Lemma StronglySorted_lookup (l : list A) (i j : nat) x y :
  StronglySorted R l -> (i < j)%nat -> l !! i = Some x -> l !! j = Some y -> R x y.
Proof.
  intros S. revert i j. induction S as [|a l S IH F]; intros i j Hij Li Lj.
  - discriminate.
  - destruct j as [|j]; [lia|]. simpl in Lj. destruct i as [|i].
    + injection Li as <-. rewrite List.Forall_forall in F. apply F.
      apply list_elem_of_In. now apply list_elem_of_lookup_2 in Lj.
    + simpl in Li. apply (IH i j); [lia | exact Li | exact Lj].
Qed.

Lemma descendingRun_Sorted l :
  forall previous,
    Sorted (fun x y => R y x) (previous :: fst (V8.descendingRun comparefn previous l)).
Proof.
  induction l as [|current l IH]; intros previous; simpl.
  - repeat constructor.
  - destruct (Z.ltb_spec (comparefn current previous) 0) as [Hlt|Hge]; simpl.
    + specialize (IH current).
      destruct (V8.descendingRun comparefn current l) as [run rest]; simpl in *.
      constructor; [exact IH|]. constructor. now apply R_before.
    + repeat constructor.
Qed.

Lemma ascendingRun_Sorted l :
  forall previous,
    Sorted R (previous :: fst (V8.ascendingRun comparefn previous l)).
Proof.
  induction l as [|current l IH]; intros previous; simpl.
  - repeat constructor.
  - destruct (Z.ltb_spec (comparefn current previous) 0) as [Hlt|Hge]; simpl.
    + repeat constructor.
    + specialize (IH current).
      destruct (V8.ascendingRun comparefn current l) as [run rest]; simpl in *.
      constructor; [exact IH|]. constructor. now apply R_after.
Qed.

Lemma rev_StronglySorted (l : list A) :
  StronglySorted (fun x y => R y x) l -> StronglySorted R (rev l).
Proof.
  induction 1 as [|a l S IH F]; simpl; [constructor|].
  apply StronglySorted_app_iff. split; [exact IH|]. split; [repeat constructor|].
  intros x y Ix [<-|[]]. apply in_rev in Ix.
  rewrite List.Forall_forall in F. now apply F.
Qed.

Lemma CountAndMakeRun_StronglySorted l :
  StronglySorted R (fst (V8.CountAndMakeRun comparefn l)).
Proof.
  destruct l as [|x [|y l]]; simpl; try (repeat constructor).
  destruct (Z.ltb_spec (comparefn y x) 0) as [Hlt|Hge].
  - pose proof (descendingRun_Sorted l y) as S.
    destruct (V8.descendingRun comparefn y l) as [run rest]; cbn [fst] in *.
    apply (rev_StronglySorted (x :: y :: run)).
    apply Sorted_StronglySorted; [intros a b c Hab Hbc; eapply R_trans; eauto|].
    constructor; [exact S|]. constructor. now apply R_before.
  - pose proof (ascendingRun_Sorted l y) as S.
    destruct (V8.ascendingRun comparefn y l) as [run rest]; cbn [fst] in *.
    apply Sorted_StronglySorted; [intros a b c Hab Hbc; eapply R_trans; eauto|].
    constructor; [exact S|]. constructor. now apply R_after.
Qed.

Lemma half_lt d : (0 < d)%nat -> (d / 2 < d)%nat.
Proof. intros Hd. apply Nat.div_lt; lia. Qed.

Lemma searchPlace_step steps (sorted : list A) pivot left right :
  V8.searchPlace comparefn (S steps) sorted pivot left right =
  if (left <? right)%nat then
    match sorted !! (left + (right - left) / 2)%nat with
    | Some x =>
        if comparefn pivot x <? 0
        then V8.searchPlace comparefn steps sorted pivot left (left + (right - left) / 2)%nat
        else V8.searchPlace comparefn steps sorted pivot
               (left + (right - left) / 2 + 1)%nat right
    | None => left
    end
  else left.
Proof. reflexivity. Qed.

Lemma searchPlace_spec (sorted : list A) (pivot : A) :
  StronglySorted R sorted ->
  forall steps left right,
    (left <= right <= length sorted)%nat ->
    (right - left < steps)%nat ->
    (forall j x, (j < left)%nat -> sorted !! j = Some x -> R x pivot) ->
    (forall j x, (right <= j)%nat -> sorted !! j = Some x -> R pivot x) ->
    let place := V8.searchPlace comparefn steps sorted pivot left right in
    (place <= length sorted)%nat /\
    (forall j x, (j < place)%nat -> sorted !! j = Some x -> R x pivot) /\
    (forall j x, (place <= j)%nat -> sorted !! j = Some x -> R pivot x).
Proof.
  intros Hs. induction steps as [|steps IH]; intros left right Hb Hm Hl Hr; [lia|].
  cbv zeta. rewrite searchPlace_step. destruct (Nat.ltb_spec left right) as [Hlt|Hge].
  - set (mid := (left + (right - left) / 2)%nat).
    assert (Hmid : (left <= mid < right)%nat).
    { unfold mid. pose proof (half_lt (right - left) ltac:(lia)). lia. }
    destruct (sorted !! mid) as [x|] eqn:Lx.
    2:{ apply lookup_ge_None in Lx. lia. }
    destruct (Z.ltb_spec (comparefn pivot x) 0) as [Hc|Hc].
    + apply R_before in Hc. apply (IH left mid); [lia | lia | exact Hl |].
      intros j y Hj Ly. destruct (decide (j = mid)) as [->|Hne].
      * congruence.
      * apply (R_trans _ x); [exact Hc|].
        apply (StronglySorted_lookup sorted mid j); [exact Hs | lia | exact Lx | exact Ly].
    + assert (Hxp : R x pivot) by now apply R_after.
      apply (IH (mid + 1)%nat right); [lia | lia | | exact Hr].
      intros j y Hj Ly. destruct (decide (j = mid)) as [->|Hne].
      * congruence.
      * apply (R_trans _ x); [|exact Hxp].
        apply (StronglySorted_lookup sorted j mid); [exact Hs | lia | exact Ly | exact Lx].
  - assert (left = right) as -> by lia. split; [lia|]. split; assumption.
Qed.

Lemma insertPivot_StronglySorted (sorted : list A) (pivot : A) :
  StronglySorted R sorted ->
  StronglySorted R (V8.insertPivot comparefn sorted pivot).
Proof.
  intros Hs. unfold V8.insertPivot.
  destruct (searchPlace_spec sorted pivot Hs (S (length sorted)) 0 (length sorted))
    as (Hp & Hbefore & Hafter); [lia | lia | intros; lia | |].
  { intros j x Hj Lx. apply lookup_lt_Some in Lx. lia. }
  set (place := V8.searchPlace _ _ _ _ _ _) in *.
  pose proof Hs as S'. rewrite <- (take_drop place sorted) in S'.
  apply StronglySorted_app_iff in S' as (S1 & S2 & C).
  apply StronglySorted_app_iff. split; [exact S1|]. split.
  - constructor; [exact S2|]. apply List.Forall_forall. intros y Iy.
    apply list_elem_of_In, list_elem_of_lookup in Iy as (j & Lj).
    rewrite lookup_drop in Lj. apply (Hafter (place + j)%nat); [lia | exact Lj].
  - intros x y Ix [<-|Iy]; [|now apply C].
    apply list_elem_of_In, list_elem_of_lookup in Ix as (j & Lj).
    apply lookup_take_Some in Lj as [Lj Hj]. now apply (Hbefore j).
Qed.

Lemma V8_sort_StronglySorted (l : list A) :
  StronglySorted R (V8.sort comparefn l).
Proof.
  unfold V8.sort. pose proof (CountAndMakeRun_StronglySorted l) as S.
  destruct (V8.CountAndMakeRun comparefn l) as [run rest]; cbn [fst] in S.
  unfold V8.BinaryInsertionSort. revert run S.
  induction rest as [|pivot rest IH]; intros run S; simpl; [exact S|].
  apply IH. now apply insertPivot_StronglySorted.
Qed.

End V8Sorted.

Lemma Array_slice_lookup {A} (l : list A) (start end_ : Z) (i : nat) (x : A) :
  Array_slice l start end_ !! i = Some x ->
  exists k, l !! (k + i)%nat = Some x.
Proof.
  unfold Array_slice. cbv zeta. intros L.
  apply lookup_take_Some in L as [L _]. rewrite lookup_drop in L. eauto.
Qed.

Lemma sorted_slice_lookup {A} (R : A -> A -> Prop) (l : list A) (start end_ : Z)
    (i j : nat) (x y : A) :
  StronglySorted R l ->
  (i < j)%nat ->
  Array_slice l start end_ !! i = Some x ->
  Array_slice l start end_ !! j = Some y ->
  R x y.
Proof.
  unfold Array_slice. cbv zeta. intros Hs Hij Li Lj.
  apply lookup_take_Some in Li as [Li _]. rewrite lookup_drop in Li.
  apply lookup_take_Some in Lj as [Lj _]. rewrite lookup_drop in Lj.
  eapply (StronglySorted_lookup R l); [exact Hs | | exact Li | exact Lj]. lia.
Qed.

Lemma String_compare_trans (x : string) :
  forall y z, String.compare x y <> Lt -> String.compare y z <> Lt ->
              String.compare x z <> Lt.
Proof.
  induction x as [|a x IH]; intros [|b y] [|c z]; simpl; try congruence.
  unfold Ascii.compare.
  destruct (N.compare_spec (N_of_ascii a) (N_of_ascii b)),
           (N.compare_spec (N_of_ascii b) (N_of_ascii c)),
           (N.compare_spec (N_of_ascii a) (N_of_ascii c));
    try congruence; try lia; try apply IH.
Qed.

Lemma String_ltb_false (x y : string) :
  String.ltb x y = false <-> String.compare x y <> Lt.
Proof. unfold String.ltb. destruct (String.compare x y); split; congruence. Qed.

Lemma sortValue_lt_asym filters x y :
  AnalysesRoute.sortValue_lt filters x y = true ->
  AnalysesRoute.sortValue_lt filters y x = false.
Proof.
  unfold AnalysesRoute.sortValue_lt.
  destruct (sortBy filters) as [[]|]; try (intros Hl; apply Z.ltb_lt in Hl; apply Z.ltb_ge; lia).
  unfold String.ltb. rewrite (String.compare_antisym (title y)).
  destruct (String.compare (title x) (title y)); cbn; congruence.
Qed.

Lemma sortValue_lt_trans filters x y z :
  AnalysesRoute.sortValue_lt filters x y = false ->
  AnalysesRoute.sortValue_lt filters y z = false ->
  AnalysesRoute.sortValue_lt filters x z = false.
Proof.
  unfold AnalysesRoute.sortValue_lt.
  destruct (sortBy filters) as [[]|];
    try (rewrite !Z.ltb_ge; lia).
  rewrite !String_ltb_false. apply String_compare_trans.
Qed.

Lemma listing_StronglySorted (filters : AnalysisFilters) (l : list SavedAnalysis) :
  StronglySorted (fun x y => AnalysesRoute.compareFn filters x y < 0)
    (V8.sort (AnalysesRoute.compareFn filters) l).
Proof.
  unfold AnalysesRoute.compareFn.
  destruct (sortOrder filters) as [[]|]; apply V8_sort_StronglySorted.
  all: try (intros x y Hc; exact Hc).
  all: try (intros x y Hc;
            match type of Hc with context [if ?b then 1 else -1] =>
              destruct b eqn:E end; [|lia];
            rewrite (sortValue_lt_asym _ _ _ E); lia).
  all: intros x y z Hxy Hyz;
       match type of Hxy with context [if ?b then 1 else -1] =>
         destruct b eqn:Exy end; [lia|];
       match type of Hyz with context [if ?b then 1 else -1] =>
         destruct b eqn:Eyz end; [lia|].
  - now rewrite (sortValue_lt_trans _ _ _ _ Eyz Exy).
  - now rewrite (sortValue_lt_trans _ _ _ _ Exy Eyz).
  - now rewrite (sortValue_lt_trans _ _ _ _ Exy Eyz).
Qed.

(** X20: on V8 a listing is in the order asked for, whatever the
    filters and the page: of two records of a response, the later one
    has no smaller sort value than the earlier one when the order is
    [asc], and no larger one otherwise ([desc] is the default); sorted
    by [updated_at] in the order [desc], the defaults of the route, the
    listing runs from the latest update to the earliest. *)
Theorem listing_is_ordered (toLowerCase : string -> string)
    (filters : AnalysisFilters) (page pageSize : Z)
    (l : list SavedAnalysis) (i j : nat) (x y : SavedAnalysis) :
  (i < j)%nat ->
  analyses (AnalysesRoute.listResponse (H := V8.host toLowerCase)
              filters page pageSize l) !! i = Some x ->
  analyses (AnalysesRoute.listResponse (H := V8.host toLowerCase)
              filters page pageSize l) !! j = Some y ->
  match sortOrder filters with
  | Some asc => AnalysesRoute.sortValue_lt filters y x = false
  | _ => AnalysesRoute.sortValue_lt filters x y = false
  end /\
  (sortBy filters = Some by_updated_at -> sortOrder filters = Some desc ->
   updated_at (metadata y) <= updated_at (metadata x)).
Proof.
  intros Hij Li Lj. unfold AnalysesRoute.listResponse in Li, Lj. cbn [analyses] in Li, Lj.
  pose proof (sorted_slice_lookup _ _ _ _ i j x y
                (listing_StronglySorted filters (AnalysesRoute.applyFilters filters l))
                Hij Li Lj) as Hr.
  cbv beta in Hr.
  assert (Ho : match sortOrder filters with
               | Some asc => AnalysesRoute.sortValue_lt filters y x = false
               | _ => AnalysesRoute.sortValue_lt filters x y = false
               end).
  { unfold AnalysesRoute.compareFn in Hr.
    destruct (sortOrder filters) as [[]|];
      match type of Hr with context [if ?b then 1 else -1] => destruct b end;
      (reflexivity || lia). }
  split; [exact Ho|].
  intros Eb Eo. rewrite Eo in Ho. unfold AnalysesRoute.sortValue_lt in Ho.
  rewrite Eb in Ho. now apply Z.ltb_ge in Ho.
Qed.

Lemma listing_is_ordered_witness :
  updated_at (metadata taggedC) <= updated_at (metadata taggedAB).
Proof.
  apply (listing_is_ordered toLowerCase_ASCII defaultFilters 1 10
           [untagged; taggedAB; taggedC] 0 1
           taggedAB taggedC); [lia | reflexivity | reflexivity | reflexivity |
           reflexivity].
Defined.

(** X21: on V8 the recent activity runs from the newest entry to the
    oldest and has at most 20 entries: of two entries of the list
    [getRecentActivity] returns, the later one has no later date than
    the earlier one. *)
Theorem recent_activity_is_newest_first (toLowerCase : string -> string)
    (w : World) :
  exists log,
    AnalysisStorage.getRecentActivity (H := V8.host toLowerCase) w =
      (Returned log, w) /\
    (length log <= 20)%nat /\
    forall (i j : nat) (x y : DashboardActivity),
      (i < j)%nat -> log !! i = Some x -> log !! j = Some y ->
      act_date y <= act_date x.
Proof.
  eexists. split; [apply getRecentActivity_run|]. split.
  - cbn [recentActivity dashboardStats]. rewrite Array_slice_20, length_take. lia.
  - intros i j x y Hij Li Lj. cbn [recentActivity dashboardStats] in Li, Lj.
    refine (sorted_slice_lookup (fun a b => act_date b <= act_date a) _ _ _ i j x y
              _ Hij Li Lj).
    apply V8_sort_StronglySorted; intros; lia.
Qed.

(** ** The comparables of the form *)

Lemma filter_drops_at_most_one (index : Z) (l : list Z) :
  NoDup l ->
  (length l <= S (length (List.filter (fun i => negb (i =? index)%Z) l)))%nat.
Proof.
  induction 1 as [|a l Ha Hl IH]; simpl; [lia|].
  destruct (Z.eqb_spec a index) as [->|Hne]; simpl; [|lia].
  rewrite (List.forallb_filter_id _ l); [lia|].
  apply forallb_forall. intros j Ij. apply negb_true_iff, Z.eqb_neq.
  intros ->. apply Ha. now apply list_elem_of_In.
Qed.

Lemma handleClick_invariant (st : ComparableProperties.State) (c : Click) :
  NoDup (ComparableProperties.activeComparables st) ->
  ComparableProperties.activeComparables st <> [] ->
  NoDup (ComparableProperties.activeComparables (handleClick st c)) /\
  ComparableProperties.activeComparables (handleClick st c) <> [].
Proof.
  intros Hn He. destruct c as [index|index]; cbn [handleClick].
  - unfold ComparableProperties.addComparable.
    destruct (existsb (Z.eqb index) (ComparableProperties.activeComparables st)) eqn:E;
      [now split|].
    cbn [ComparableProperties.activeComparables]. split.
    + apply NoDup_app. split; [exact Hn|]. split; [|apply NoDup_singleton].
      intros j Ij Hj. apply list_elem_of_In in Hj. destruct Hj as [<-|[]].
      apply list_elem_of_In in Ij.
      assert (existsb (Z.eqb index) (ComparableProperties.activeComparables st) = true).
      { apply existsb_exists. exists index. split; [exact Ij | apply Z.eqb_refl]. }
      congruence.
    + now destruct (ComparableProperties.activeComparables st).
  - unfold ComparableProperties.removeComparable.
    destruct (Z.ltb_spec 1 (Z.of_nat (length (ComparableProperties.activeComparables st))))
      as [Hlt|Hge]; [|now split].
    cbn [ComparableProperties.activeComparables]. split.
    + apply NoDup_ListNoDup, List.NoDup_filter, NoDup_ListNoDup, Hn.
    + intros E. pose proof (filter_drops_at_most_one index _ Hn) as Hl.
      rewrite E in Hl. simpl in Hl. lia.
Qed.

(** X22: whatever is clicked, in whatever order, the list of active
    comparables never becomes empty and never holds an index twice. *)
Theorem active_comparables_stay_distinct (form : gmap string string)
    (cs : list Click) :
  NoDup (ComparableProperties.activeComparables
           (handleClicks cs (ComparableProperties.initialState form))) /\
  ComparableProperties.activeComparables
    (handleClicks cs (ComparableProperties.initialState form)) <> [].
Proof.
  unfold handleClicks.
  assert (G : forall st,
    NoDup (ComparableProperties.activeComparables st) ->
    ComparableProperties.activeComparables st <> [] ->
    NoDup (ComparableProperties.activeComparables (fold_left handleClick cs st)) /\
    ComparableProperties.activeComparables (fold_left handleClick cs st) <> []).
  { induction cs as [|c cs IH]; intros st Hn He; [now split|].
    cbn [fold_left]. destruct (handleClick_invariant st c Hn He) as [Hn' He'].
    now apply IH. }
  apply G; cbn; [apply NoDup_singleton | discriminate].
Qed.

Lemma fold_insert_lookup_In {B} (g : string -> string) (v : B) (fs : list string)
    (key : string) :
  forall m : gmap string B,
    In key (map g fs) ->
    fold_left (fun form field => <[g field := v]> form) fs m !! key = Some v.
Proof.
  induction fs as [|f fs IH]; intros m I; [destruct I|].
  cbn [fold_left]. destruct (in_dec string_dec key (map g fs)) as [I'|N].
  - now apply IH.
  - destruct I as [<-|I]; [|contradiction]. clear IH.
    revert m. induction fs as [|f' fs IH']; intros m; cbn [fold_left].
    + apply lookup_insert_eq.
    + cbn [map] in N. rewrite insert_insert_ne by (intros E; apply N; left; congruence).
      apply IH'. intros I. apply N. now right.
Qed.

Lemma fold_insert_lookup_other {B} (g : string -> string) (v : B) (fs : list string)
    (key : string) :
  forall m : gmap string B,
    ~ In key (map g fs) ->
    fold_left (fun form field => <[g field := v]> form) fs m !! key = m !! key.
Proof.
  induction fs as [|f fs IH]; intros m N; [reflexivity|].
  cbn [fold_left]. rewrite IH by (intros I; apply N; now right).
  apply lookup_insert_ne. intros E. apply N. now left.
Qed.

(** X23: removing a comparable while another one is active takes it
    off the list and blanks its eight form fields; every other field of
    the form keeps its value. *)
Theorem removeComparable_blanks_its_fields (index : Z)
    (st : ComparableProperties.State) :
  (1 < length (ComparableProperties.activeComparables st))%nat ->
  let st' := ComparableProperties.removeComparable index st in
  ~ In index (ComparableProperties.activeComparables st') /\
  (forall field, In field ComparableProperties.fields ->
     ComparableProperties.formValues st'
       !! ComparableProperties.fieldName index field = Some "") /\
  (forall key,
     ~ In key (map (ComparableProperties.fieldName index) ComparableProperties.fields) ->
     ComparableProperties.formValues st' !! key =
     ComparableProperties.formValues st !! key).
Proof.
  intros Hl st'. unfold st', ComparableProperties.removeComparable.
  destruct (Z.ltb_spec 1 (Z.of_nat (length (ComparableProperties.activeComparables st))))
    as [_|Hge]; [|lia].
  cbn [ComparableProperties.activeComparables ComparableProperties.formValues].
  split; [|split].
  - intros I. apply filter_In in I as [_ I].
    apply negb_true_iff, Z.eqb_neq in I. congruence.
  - intros field I.
    apply (fold_insert_lookup_In (ComparableProperties.fieldName index)).
    now apply in_map.
  - intros key N.
    now apply (fold_insert_lookup_other (ComparableProperties.fieldName index)).
Qed.

Lemma removeComparable_blanks_its_fields_witness :
  ComparableProperties.formValues
    (ComparableProperties.removeComparable 2
       {| ComparableProperties.activeComparables := [1; 2];
          ComparableProperties.formValues := {[ "comparable_2_price" := "500000" ]} |})
    !! ComparableProperties.fieldName 2 "price" = Some "".
Proof.
  apply (removeComparable_blanks_its_fields 2
           {| ComparableProperties.activeComparables := [1; 2];
              ComparableProperties.formValues := {[ "comparable_2_price" := "500000" ]} |}).
  - cbn. lia.
  - cbn. tauto.
Defined.

(** ** The filter of the dashboard page *)

(** X24: the filter [active] of the dashboard page and the count of
    active rentals of the summary differ by the analyses the client has
    responded to: the page lists them as active, the summary does not
    count them. *)
Theorem active_filter_and_active_rentals `{Host} (now : Z) (l : list SavedAnalysis) :
  Z.of_nat (length (DashboardPage.filteredAnalyses DashboardPage.active now l)) =
  activeRentals (dashboardStats l) +
  Z.of_nat (length (List.filter
                      (fun a => bool_decide (status (metadata a) = client_responded)) l)).
Proof.
  unfold DashboardPage.filteredAnalyses. cbn [activeRentals dashboardStats].
  induction l as [|a l IH]; [reflexivity|].
  cbn [List.filter]. unfold DashboardPage.keeps at 1, AnalysisStorage.isActive at 1.
  destruct (status (metadata a)); repeat case_bool_decide; try congruence;
    cbn [orb length] in *; lia.
Qed.

(** ** Reading one analysis *)

(** X25: [GET] of one analysis answers from the store: for an id that
    is not empty and not cached, the response is the first stored
    record with that id, or 404 when there is none; a record it returns
    has the id asked for and is stored; when the store is unavailable
    the answer is 404, not an error. *)
Theorem GET_answers_from_the_store (i : string) (w : World) :
  i <> "" ->
  entries (cache w) !! i = None ->
  fst (AnalysisRoute.GET i w) =
    Returned (match List.find (same_id i) (storedAnalyses w) with
              | Some a => AnalysisRoute.Found200 a
              | None => AnalysisRoute.GetNotFound404
              end) /\
  (forall a, fst (AnalysisRoute.GET i w) = Returned (AnalysisRoute.Found200 a) ->
     id a = i /\ In a (storedAnalyses w)) /\
  (storage_available w = false ->
   fst (AnalysisRoute.GET i w) = Returned AnalysisRoute.GetNotFound404).
Proof.
  intros Ni M.
  assert (G : fst (AnalysisRoute.GET i w) =
    Returned (match List.find (same_id i) (storedAnalyses w) with
              | Some a => AnalysisRoute.Found200 a
              | None => AnalysisRoute.GetNotFound404
              end)).
  { unfold AnalysisRoute.GET. apply String.eqb_neq in Ni. rewrite Ni.
    pose proof (getAnalysisById_miss i w M) as F.
    unfold try_catch, bind.
    destruct (analysisStore.getAnalysisById i w) as [o w']. cbn [fst] in F. subst o.
    now destruct (List.find (same_id i) (storedAnalyses w)). }
  split; [exact G|]. split.
  - intros a Ea. rewrite G in Ea.
    destruct (List.find (same_id i) (storedAnalyses w)) as [b|] eqn:F; [|discriminate].
    injection Ea as ->. apply find_some in F as [I S].
    split; [now apply String.eqb_eq in S | exact I].
  - intros E. rewrite G. unfold storedAnalyses. now rewrite E.
Qed.

Lemma GET_answers_from_the_store_witness :
  fst (AnalysisRoute.GET "c" (browser [taggedAB; taggedC] 0)) =
  Returned (AnalysisRoute.Found200 taggedC).
Proof.
  exact (proj1 (GET_answers_from_the_store "c"
                  (browser [taggedAB; taggedC] 0) ltac:(discriminate) eq_refl)).
Defined.
